(** * VisionGlove: a shallow embedding of the threat evaluator, the emergency
    dispatcher, the status query and the sensor fusion code, with the
    properties of its specification. *)

From Stdlib Require Import Bool ZArith List String Ascii Lia.
From Stdlib Require Import QArith Reals Ratan Lra.
Import ListNotations.

(* ------------------------------------------------------------------ *)
(** ** core/glove_system.py : _analyze_threat_level *)

Module Threat.
Local Open Scope Z_scope.

(** The two dictionaries as the evaluator reads them: [person_count] from
    [vision_data] (default 0), the truthiness of [unusual_movement] and of
    [emergency_gesture] from [sensor_data] (default False). *)
Record sensor_view := {
  unusual_movement : bool;
  emergency_gesture : bool
}.

Record vision_view := {
  person_count : Z
}.

(** [self.config.get('vision.person_threshold')] is a parameter. *)
Definition _analyze_threat_level (person_threshold : Z)
    (sensor_data : sensor_view) (vision_data : vision_view) : Z :=
  let threat_level := 0 in
  let threat_level :=
    if person_count vision_data >=? person_threshold
    then Z.max threat_level 1 else threat_level in
  let threat_level :=
    if unusual_movement sensor_data
    then Z.max threat_level 2 else threat_level in
  let threat_level :=
    if emergency_gesture sensor_data then 3 else threat_level in
  threat_level.

(** The rule of the specification, written from its words: the maximum of the
    triggered floors (1 for the crowd, 2 for unusual movement, 3 for the
    emergency gesture), 0 when none is triggered. *)
Definition triggered_floors (person_threshold : Z)
    (s : sensor_view) (v : vision_view) : list Z :=
  (if person_count v >=? person_threshold then [1] else []) ++
  (if unusual_movement s then [2] else []) ++
  (if emergency_gesture s then [3] else []).

Definition spec_level (person_threshold : Z) (s : sensor_view) (v : vision_view) : Z :=
  fold_right Z.max 0 (triggered_floors person_threshold s v).

End Threat.

(* ------------------------------------------------------------------ *)
(** ** Python values the dispatcher handles: strings, timestamps *)

Module PyStr.
Local Open Scope Z_scope.

Definition nl : string := String (ascii_of_nat 10) EmptyString.

Definition digit (d : Z) : ascii := ascii_of_nat (48 + Z.to_nat d).

(** Decimal digits of a non-negative integer; [fuel] bounds the number of
    digits. *)
Fixpoint dec_aux (fuel : nat) (z : Z) (acc : string) : string :=
  match fuel with
  | O => acc
  | S f =>
      let acc' := String (digit (z mod 10)) acc in
      if z / 10 =? 0 then acc' else dec_aux f (z / 10) acc'
  end.

(** [str(z)] for a Python int. *)
Definition str_int (z : Z) : string :=
  if z <? 0 then append "-" (dec_aux (S (Z.to_nat (Z.log2 (- z)))) (- z) EmptyString)
  else dec_aux (S (Z.to_nat (Z.log2 z))) z EmptyString.

Fixpoint zeros (n : nat) : string :=
  match n with O => EmptyString | S k => String "0" (zeros k) end.

(** [format(z, '0wd')] for a non-negative [z]: zero padded to width [w]. *)
Definition zpad (w : nat) (z : Z) : string :=
  let s := str_int z in append (zeros (w - String.length s)) s.

(** [str.strip()] on the ASCII whitespace characters. *)
Definition is_space (c : ascii) : bool :=
  let n := nat_of_ascii c in (Nat.eqb n 32 || (Nat.leb 9 n && Nat.leb n 13))%bool.

Fixpoint lstrip (s : string) : string :=
  match s with
  | String c r => if is_space c then lstrip r else s
  | EmptyString => EmptyString
  end.

Fixpoint rev_str (s : string) (acc : string) : string :=
  match s with
  | String c r => rev_str r (String c acc)
  | EmptyString => acc
  end.

Definition strip (s : string) : string :=
  rev_str (lstrip (rev_str (lstrip s) EmptyString)) EmptyString.

(** [s.split(',')]: always at least one piece. *)
Fixpoint split_comma (s : string) : list string :=
  match s with
  | EmptyString => [EmptyString]
  | String c r =>
      let parts := split_comma r in
      if Ascii.eqb c "," then EmptyString :: parts
      else match parts with
           | p :: ps => String c p :: ps
           | [] => [String c EmptyString]
           end
  end.

End PyStr.

Module Stamp.
Local Open Scope Z_scope.
Import PyStr.

Record datetime := mk_datetime {
  year : Z; month : Z; day : Z;
  hour : Z; minute : Z; second : Z; microsecond : Z
}.

Record date := mk_date { d_year : Z; d_month : Z; d_day : Z }.

Record time_of_day := mk_time {
  t_hour : Z; t_minute : Z; t_second : Z; t_microsecond : Z
}.

(** The value found under the key ['timestamp']: a [datetime], a [date],
    a [time], the float of [time.time()], an int, a string or [None]. *)
Inductive timestamp :=
| TsDatetime (d : datetime)
| TsDate (d : date)
| TsTime (t : time_of_day)
| TsFloat (x : Q)
| TsInt (z : Z)
| TsStr (s : string)
| TsNone.

(** The broken-down time [strftime] formats: (Y, m, d, H, M, S).  A [date]
    has zero time fields; a [time] has year 1900, month 1 and day 1. *)
Definition fields (t : timestamp) : option (Z * Z * Z * Z * Z * Z) :=
  match t with
  | TsDatetime d => Some (year d, month d, day d, hour d, minute d, second d)
  | TsDate d => Some (d_year d, d_month d, d_day d, 0, 0, 0)
  | TsTime t => Some (1900, 1, 1, t_hour t, t_minute t, t_second t)
  | _ => None
  end.

Fixpoint render (f : Z * Z * Z * Z * Z * Z) (fmt : string) : string :=
  let '(y, mo, d, h, mi, s) := f in
  match fmt with
  | String "%" (String c r) =>
      let piece :=
        match c with
        | "Y"%char => zpad 4 y
        | "m"%char => zpad 2 mo
        | "d"%char => zpad 2 d
        | "H"%char => zpad 2 h
        | "M"%char => zpad 2 mi
        | "S"%char => zpad 2 s
        | _ => String "%" (String c EmptyString)
        end in
      append piece (render f r)
  | String c r => String c (render f r)
  | EmptyString => EmptyString
  end.

(** [timestamp.strftime(fmt)]; [None] is the [AttributeError] of an object
    without that method. *)
Definition strftime (t : timestamp) (fmt : string) : option string :=
  match fields t with
  | Some f => Some (render f fmt)
  | None => None
  end.

(** [timestamp.microsecond]; [None] is the [AttributeError]. *)
Definition microsecond_of (t : timestamp) : option Z :=
  match t with
  | TsDatetime d => Some (microsecond d)
  | TsTime t => Some (t_microsecond t)
  | _ => None
  end.

End Stamp.

(* ------------------------------------------------------------------ *)
(** ** communications/emergency_dispatcher.py, sms_service.py,
       livestream_service.py *)

Module Dispatch.
Local Open Scope Z_scope.
Import PyStr Stamp.

(** Exceptions raised inside [dispatch_emergency]. *)
Inductive exn := TypeError | AttributeError | IndexError.

Inductive res (A : Type) := Ok (a : A) | Raise (e : exn).
Arguments Ok {A} a.
Arguments Raise {A} e.

(** One entry of a record's ['actions_taken'] list (its ['timestamp'] key,
    [datetime.now()], is left out). *)
Inductive action :=
| LoggedEvent
| SmsSent (recipient : string) (success : bool)
| LivestreamStarted (success : bool)
| PoliceAlertSent (recipient : string) (success : bool)
| EmergencyLivestreamStarted (success : bool).

(** The ['data'] dictionary a caller passes: each key may be missing. *)
Record emergency_data := mk_data {
  ed_threat_level : option Z;
  ed_timestamp : option timestamp;
  ed_location : option string
}.

(** The emergency dictionary built by [dispatch_emergency]. *)
Record erecord := mk_record {
  er_id : string;
  er_timestamp : timestamp;
  er_threat_level : Z;
  er_location : string;
  er_data : emergency_data;
  er_actions : list action;
  er_status : string
}.

(** The fields [dispatch_emergency] reads but never writes. *)
Record dconf := mk_conf {
  emergency_contacts : list string;
  police_number : string;
  auto_response_enabled : bool;
  stream_enabled : bool;          (* stream_config.get('enabled', True) *)
  clock : datetime                (* the value of datetime.now() *)
}.

(** The mutable state: the [is_streaming] attribute of the livestream
    service, the [send_sms] calls made so far (recipient, message), the
    emergency dictionaries allocated so far (a record is referred to by its
    index, so that [current_emergency] and [emergency_history] share it),
    [current_emergency] and [emergency_history]. *)
Record dstate := mk_state {
  ls_is_streaming : bool;
  sms_outbox : list (string * string);
  store : list erecord;
  current_emergency : option nat;
  emergency_history : list nat
}.

Definition max_history_size : nat := 100.

(** [EmergencyDispatcher.__init__] and [LivestreamService.__init__]. *)
Definition init_conf (emergency_contact police : string) (enabled : bool)
    (now : datetime) : dconf :=
  mk_conf (split_comma emergency_contact) police true enabled now.

Definition init_state : dstate := mk_state false [] [] None [].

Section Dispatcher.

(** [hash] of a [str] in this interpreter session (seeded per process). *)
Variable str_hash : string -> Z.

(** The outcome of the [n]-th [send_sms] call of the session.  The stub of
    the repository always returns [True]; a real transport may fail. *)
Variable sms_result : nat -> string -> string -> bool.

Definition M (A : Type) := dconf -> dstate -> res A * dstate.

Definition ret {A} (a : A) : M A := fun _ s => (Ok a, s).
Definition raise {A} (e : exn) : M A := fun _ s => (Raise e, s).
Definition bind {A B} (m : M A) (k : A -> M B) : M B :=
  fun c s => match m c s with
             | (Ok a, s') => k a c s'
             | (Raise e, s') => (Raise e, s')
             end.
(** [try: ... except Exception: ...]: the state reached before the
    exception is kept. *)
Definition catch {A} (m : M A) (h : exn -> M A) : M A :=
  fun c s => match m c s with
             | (Raise e, s') => h e c s'
             | r => r
             end.
Definition ask : M dconf := fun c s => (Ok c, s).
Definition modify (f : dstate -> dstate) : M unit := fun _ s => (Ok tt, f s).
Definition of_option {A} (o : option A) (e : exn) : M A :=
  match o with Some a => ret a | None => raise e end.

Local Notation "x <- m ;; k" := (bind m (fun x => k))
  (at level 61, m at next level, right associativity).
Local Notation "m ;;; k" := (bind m (fun _ => k))
  (at level 61, right associativity).

Definition is_empty {A} (l : list A) : bool :=
  match l with [] => true | _ => false end.

Definition when (b : bool) (m : M unit) : M unit := if b then m else ret tt.

Fixpoint for_each {A} (l : list A) (f : A -> M unit) : M unit :=
  match l with
  | [] => ret tt
  | x :: r => f x ;;; for_each r f
  end.

(** Setters of the mutable state. *)
Definition set_streaming (b : bool) (s : dstate) : dstate :=
  mk_state b (sms_outbox s) (store s) (current_emergency s) (emergency_history s).
Definition push_sms (m : string * string) (s : dstate) : dstate :=
  mk_state (ls_is_streaming s) (sms_outbox s ++ [m]) (store s)
    (current_emergency s) (emergency_history s).
Definition set_store (st : list erecord) (s : dstate) : dstate :=
  mk_state (ls_is_streaming s) (sms_outbox s) st (current_emergency s)
    (emergency_history s).
Definition set_current (o : option nat) (s : dstate) : dstate :=
  mk_state (ls_is_streaming s) (sms_outbox s) (store s) o (emergency_history s).
Definition set_history (h : list nat) (s : dstate) : dstate :=
  mk_state (ls_is_streaming s) (sms_outbox s) (store s) (current_emergency s) h.

Fixpoint update_nth {A} (n : nat) (f : A -> A) (l : list A) : list A :=
  match l, n with
  | [], _ => []
  | x :: r, O => f x :: r
  | x :: r, S k => x :: update_nth k f r
  end.

Definition add_action (a : action) (r : erecord) : erecord :=
  mk_record (er_id r) (er_timestamp r) (er_threat_level r) (er_location r)
    (er_data r) (er_actions r ++ [a]) (er_status r).

(** [emergency['actions_taken'].append(...)] on the shared dictionary. *)
Definition append_action (eid : nat) (a : action) : M unit :=
  modify (fun s => set_store (update_nth eid (add_action a) (store s)) s).

Definition get_record (eid : nat) : M erecord :=
  fun c s => of_option (nth_error (store s) eid) IndexError c s.

(** [SMSService.send_sms]. *)
Definition send_sms (phone message : string) : M bool :=
  fun _ s => (Ok (sms_result (List.length (sms_outbox s)) phone message),
              push_sms (phone, message) s).

(** [LivestreamService.start_emergency_stream]. *)
Definition start_emergency_stream : M bool :=
  modify (set_streaming true) ;;; ret true.

(** An attribute found on an object: the instance dictionary is searched
    before the class, so a bool bound in [__init__] hides a method of the
    same name. *)
Inductive attr := InstBool (b : bool) | BoundMethod.

(** [self.livestream_service.is_streaming]: [LivestreamService.__init__]
    binds [self.is_streaming = False] and every later write is a bool. *)
Definition lookup_is_streaming (s : dstate) : attr := InstBool (ls_is_streaming s).

(** [await self.livestream_service.is_streaming()]: calling a bool is a
    [TypeError]; the method body would return the attribute. *)
Definition call_is_streaming : M bool :=
  fun _ s => match lookup_is_streaming s with
             | InstBool _ => (Raise TypeError, s)
             | BoundMethod => (Ok (ls_is_streaming s), s)
             end.

(** [_generate_emergency_id]: [strftime] is evaluated before
    [microsecond]. *)
Definition _generate_emergency_id (t : timestamp) : M string :=
  stamp <- of_option (strftime t "%Y%m%d_%H%M%S") AttributeError ;;
  us <- of_option (microsecond_of t) AttributeError ;;
  ret (append "VG_" (append stamp (append "_"
         (zpad 3 (str_hash (str_int us) mod 1000))))).

(** [_create_alert_message]. *)
Definition police_text (tl : Z) (loc t id : string) : string :=
  append "EMERGENCY ALERT - VisionGlove Security System" (append nl
  (append "Threat Level: " (append (str_int tl) (append nl
  (append "Location: " (append loc (append nl
  (append "Time: " (append t (append nl
  (append "Incident ID: " (append id (append nl
    "Immediate response required."))))))))))))).

Definition contact_text (tl : Z) (loc t : string) : string :=
  append "VisionGlove Alert" (append nl
  (append "Alert Level: " (append (str_int tl) (append nl
  (append "Location: " (append loc (append nl
  (append "Time: " (append t (append nl
    (if 3 <=? tl then "EMERGENCY - Authorities have been contacted."
     else "Monitoring situation."))))))))))).

Definition _create_alert_message (r : erecord) (is_police : bool) : M string :=
  let fmt := if is_police then "%Y-%m-%d %H:%M:%S"%string else "%H:%M:%S"%string in
  t <- of_option (strftime (er_timestamp r) fmt) AttributeError ;;
  ret (if is_police then police_text (er_threat_level r) (er_location r) t (er_id r)
       else contact_text (er_threat_level r) (er_location r) t).

(** [_handle_caution_level]; [_prepare_emergency_systems] only calls the
    no-op [test_connection] and [prepare_stream]. *)
Definition _handle_caution_level (eid : nat) : M unit :=
  append_action eid LoggedEvent.

(** [_handle_alert_level]. *)
Definition _handle_alert_level (eid : nat) : M unit :=
  c <- ask ;;
  when (negb (is_empty (emergency_contacts c)) && auto_response_enabled c)
    (r <- get_record eid ;;
     message <- _create_alert_message r false ;;
     for_each (emergency_contacts c) (fun contact =>
       let contact := strip contact in
       if String.eqb contact "" then ret tt
       else success <- send_sms contact message ;;
            append_action eid (SmsSent contact success))) ;;;
  when (stream_enabled c)
    (stream_success <- start_emergency_stream ;;
     append_action eid (LivestreamStarted stream_success)).

(** [_handle_emergency_level]. *)
Definition _handle_emergency_level (eid : nat) : M unit :=
  c <- ask ;;
  when (negb (String.eqb (police_number c) "") && auto_response_enabled c)
    (r <- get_record eid ;;
     police_message <- _create_alert_message r true ;;
     success <- send_sms (police_number c) police_message ;;
     append_action eid (PoliceAlertSent (police_number c) success)) ;;;
  streaming <- call_is_streaming ;;
  when (negb streaming)
    (stream_success <- start_emergency_stream ;;
     append_action eid (EmergencyLivestreamStarted stream_success)).

(** Allocate the new emergency dictionary and return its reference. *)
Definition alloc (r : erecord) : M nat :=
  fun _ s => (Ok (List.length (store s)), set_store (store s ++ [r]) s).

(** [emergency_history.append(e)], then [pop(0)] above the capacity. *)
Definition push_history (eid : nat) : M unit :=
  modify (fun s =>
    let h := emergency_history s ++ [eid] in
    set_history (if Nat.ltb max_history_size (List.length h) then List.tl h else h) s).

(** [dispatch_emergency]. *)
Definition dispatch_emergency (ed : emergency_data) : M bool :=
  catch
    (c <- ask ;;
     let threat_level := match ed_threat_level ed with Some z => z | None => 0 end in
     let timestamp := match ed_timestamp ed with
                      | Some t => t | None => TsDatetime (clock c) end in
     let location := match ed_location ed with
                     | Some l => l | None => "Unknown location"%string end in
     id <- _generate_emergency_id timestamp ;;
     eid <- alloc (mk_record id timestamp threat_level location ed [] "active") ;;
     modify (set_current (Some eid)) ;;;
     when (1 <=? threat_level) (_handle_caution_level eid) ;;;
     when (2 <=? threat_level) (_handle_alert_level eid) ;;;
     when (3 <=? threat_level) (_handle_emergency_level eid) ;;;
     push_history eid ;;;
     ret true)
    (fun _ => ret false).

End Dispatcher.

(** The actions a list of [actions_taken] entries adds to a record. *)
Definition add_actions (l : list action) (r : erecord) : erecord :=
  mk_record (er_id r) (er_timestamp r) (er_threat_level r) (er_location r)
    (er_data r) (er_actions r ++ l) (er_status r).

(** The recipients the contact loop sends to: the stripped, non-blank
    entries, in order. *)
Definition attempted (contacts : list string) : list string :=
  filter (fun c => negb (String.eqb c "")) (map strip contacts).

(** The ['sms_sent'] entries the contact loop appends, the first send being
    the [n]-th of the session. *)
Fixpoint sent_actions (sms : nat -> string -> string -> bool) (n : nat) (message : string)
    (contacts : list string) : list action :=
  match contacts with
  | [] => []
  | c :: cs =>
      let c' := strip c in
      if String.eqb c' "" then sent_actions sms n message cs
      else SmsSent c' (sms n c' message) :: sent_actions sms (S n) message cs
  end.

End Dispatch.

(* ------------------------------------------------------------------ *)
(** ** core/glove_system.py : get_status *)

Module Status.
Import Dispatch.

(** The subsystem objects, with the attributes [get_status] reaches.
    [SensorManager], [VisionProcessor] and [EmergencyDispatcher] bind
    [self.is_active = False] in [__init__] (later writes are bools);
    [HapticController] has no such attribute, its [is_active] method returns
    [is_initialized]. *)
Record sensor_manager := mk_sm { sm_is_active : bool }.
Record vision_processor := mk_vp { vp_is_active : bool }.
Record haptic_controller := mk_hc { hc_is_initialized : bool }.
Record emergency_dispatcher := mk_ed { ed_is_active : bool }.

Record glove := mk_glove {
  is_running : bool;
  start_time : option Q;
  threat_level : Z;
  last_update : option Q;
  g_sensor_manager : option sensor_manager;
  g_vision_processor : option vision_processor;
  g_haptic_controller : option haptic_controller;
  g_emergency_dispatcher : option emergency_dispatcher
}.

Record subsystems := mk_subsystems {
  sub_sensors : bool; sub_vision : bool; sub_haptics : bool; sub_emergency : bool
}.

Record status := mk_status {
  st_running : bool;
  st_uptime : Q;
  st_threat_level : Z;
  st_last_update : option Q;
  st_subsystems : subsystems
}.

(** [obj.is_active()] for an attribute found as [a]. *)
Definition call_is_active (a : attr) (body : bool) : res bool :=
  match a with
  | InstBool _ => Raise TypeError
  | BoundMethod => Ok body
  end.

Definition sm_is_active_call (m : sensor_manager) : res bool :=
  call_is_active (InstBool (sm_is_active m)) (sm_is_active m).
Definition vp_is_active_call (v : vision_processor) : res bool :=
  call_is_active (InstBool (vp_is_active v)) (vp_is_active v).
Definition hc_is_active_call (h : haptic_controller) : res bool :=
  call_is_active BoundMethod (hc_is_initialized h).
Definition ed_is_active_call (d : emergency_dispatcher) : res bool :=
  call_is_active (InstBool (ed_is_active d)) (ed_is_active d).

(** [x is not None and x.is_active()]. *)
Definition and_active {A} (o : option A) (call : A -> res bool) : res bool :=
  match o with None => Ok false | Some x => call x end.

(** [get_status]; [now] is the value of [time.time()].  The dictionary
    entries are evaluated in the order they are written. *)
Definition get_status (g : glove) (now : Q) : res status :=
  let uptime := match start_time g with Some t => (now - t)%Q | None => 0%Q end in
  match and_active (g_sensor_manager g) sm_is_active_call with
  | Raise e => Raise e
  | Ok s1 =>
  match and_active (g_vision_processor g) vp_is_active_call with
  | Raise e => Raise e
  | Ok s2 =>
  match and_active (g_haptic_controller g) hc_is_active_call with
  | Raise e => Raise e
  | Ok s3 =>
  match and_active (g_emergency_dispatcher g) ed_is_active_call with
  | Raise e => Raise e
  | Ok s4 =>
      Ok (mk_status (is_running g) uptime (threat_level g) (last_update g)
            (mk_subsystems s1 s2 s3 s4))
  end end end end.

End Status.

(* ------------------------------------------------------------------ *)
(** ** sensors/: pressure and flex calibration, the IMU, the sensor manager.
    Floats are modelled as real numbers. *)

Module Sensors.
Local Open Scope string_scope.
Local Open Scope R_scope.

(** Python's [min(a, b)] and [max(a, b)]: the first argument is kept
    unless the second is strictly smaller (larger). *)
Definition py_min (a b : R) : R := if Rlt_dec b a then b else a.
Definition py_max (a b : R) : R := if Rlt_dec a b then b else a.

(** *** sensors/pressure_sensor.py *)

Record pressure_sensor := mk_ps {
  min_pressure : R;
  max_pressure : R;
  ps_baseline : R;
  sensitivity : R;
  touch_threshold : R
}.

(** [PressureSensor.__init__]. *)
Definition ps_init : pressure_sensor := mk_ps 0.0 1000.0 0.0 1.0 0.1.

(** [set_sensitivity]. *)
Definition set_sensitivity (s : pressure_sensor) (x : R) : pressure_sensor :=
  mk_ps (min_pressure s) (max_pressure s) (ps_baseline s)
    (py_max 0.1 (py_min 10.0 x)) (touch_threshold s).

Definition mean (l : list R) : R := fold_right Rplus 0 l / INR (List.length l).

(** [calibrate(samples)] over the readings it collected: the baseline is
    their mean and the threshold lies 3 standard deviations above; with no
    reading the division fails, the exception is caught and nothing
    changes. *)
Definition ps_calibrate (s : pressure_sensor) (readings : list R) : pressure_sensor :=
  match readings with
  | [] => s
  | _ =>
      let b := mean readings in
      let var := mean (map (fun x => (x - b) ^ 2) readings) in
      mk_ps (min_pressure s) (max_pressure s) b (sensitivity s) (b + 3 * sqrt var)
  end.

(** The calls that change a pressure channel's calibration. *)
Inductive ps_op := SetSensitivity (x : R) | Calibrate (readings : list R).

Definition ps_step (s : pressure_sensor) (o : ps_op) : pressure_sensor :=
  match o with
  | SetSensitivity x => set_sensitivity s x
  | Calibrate l => ps_calibrate s l
  end.

Definition ps_run (ops : list ps_op) : pressure_sensor := fold_left ps_step ops ps_init.

(** [PressureSensor._apply_calibration]. *)
Definition ps_apply_calibration (s : pressure_sensor) (raw_value : R) : R :=
  let corrected := (raw_value - ps_baseline s) * sensitivity s in
  py_max 0.0 (py_min (max_pressure s) corrected).

(** *** sensors/flex_sensor.py *)

Record flex_sensor := mk_fs { min_value : R; max_value : R; fs_baseline : R }.

(** [FlexSensor._apply_calibration]. *)
Definition fs_apply_calibration (s : flex_sensor) (raw_value : R) : R :=
  let corrected := raw_value - fs_baseline s in
  let normalized :=
    if Req_EM_T (max_value s) (min_value s) then corrected
    else (corrected - min_value s) / (max_value s - min_value s) in
  py_max 0.0 (py_min 1.0 normalized).

(** *** sensors/imu_sensor.py *)

Record v3 := mk_v3 { v0 : R; v1 : R; v2 : R }.
Record quat := mk_quat { qw : R; qx : R; qy : R; qz : R }.

Record imu := mk_imu {
  is_initialized : bool;
  accel_bias : v3; gyro_bias : v3; mag_bias : v3;
  orientation : v3;               (* roll, pitch, yaw in degrees *)
  quaternion : quat;
  velocity : v3; position : v3;
  last_update_time : option R     (* seconds *)
}.

(** [math.atan2]. *)
Definition atan2 (y x : R) : R :=
  if Rlt_dec 0 x then atan (y / x)
  else if Rlt_dec x 0 then
    (if Rle_dec 0 y then atan (y / x) + PI else atan (y / x) - PI)
  else if Rlt_dec 0 y then PI / 2
  else if Rlt_dec y 0 then - (PI / 2)
  else 0.

Definition radians (d : R) : R := d * PI / 180.

(** The two [while] loops of [_update_orientation] for one angle.  [fuel]
    bounds the number of iterations; [None] only means that the bound was
    too small. *)
Fixpoint wrap_down (fuel : nat) (a : R) : option R :=
  match fuel with
  | O => None
  | S f => if Rlt_dec 180 a then wrap_down f (a - 360) else Some a
  end.

Fixpoint wrap_up (fuel : nat) (a : R) : option R :=
  match fuel with
  | O => None
  | S f => if Rlt_dec a (-180) then wrap_up f (a + 360) else Some a
  end.

Definition normalize_angle (fuel : nat) (a : R) : option R :=
  match wrap_down fuel a with
  | Some b => wrap_up fuel b
  | None => None
  end.

(** [_euler_to_quaternion]. *)
Definition euler_to_quaternion (o : v3) : quat :=
  let roll := radians (v0 o) in
  let pitch := radians (v1 o) in
  let yaw := radians (v2 o) in
  let cr := cos (roll * 0.5) in let sr := sin (roll * 0.5) in
  let cp := cos (pitch * 0.5) in let sp := sin (pitch * 0.5) in
  let cy := cos (yaw * 0.5) in let sy := sin (yaw * 0.5) in
  mk_quat (cr * cp * cy + sr * sp * sy)
          (sr * cp * cy - cr * sp * sy)
          (cr * sp * cy + sr * cp * sy)
          (cr * cp * sy - sr * sp * cy).

Definition set_orientation (st : imu) (o : v3) (q : quat) : imu :=
  mk_imu (is_initialized st) (accel_bias st) (gyro_bias st) (mag_bias st)
    o q (velocity st) (position st) (last_update_time st).

(** [_update_orientation]. *)
Definition _update_orientation (fuel : nat) (st : imu) (accel gyro mag : v3) (dt : R)
    : option imu :=
  let accel_roll := atan2 (v1 accel) (v2 accel) * 180 / PI in
  let accel_pitch :=
    atan2 (- v0 accel) (sqrt (v1 accel ^ 2 + v2 accel ^ 2)) * 180 / PI in
  let gyro_roll := v0 (orientation st) + v0 gyro * dt * 180 / PI in
  let gyro_pitch := v1 (orientation st) + v1 gyro * dt * 180 / PI in
  let gyro_yaw := v2 (orientation st) + v2 gyro * dt * 180 / PI in
  let alpha := 0.98 in
  let o0 := alpha * gyro_roll + (1 - alpha) * accel_roll in
  let o1 := alpha * gyro_pitch + (1 - alpha) * accel_pitch in
  let o2 := gyro_yaw in
  match normalize_angle fuel o0, normalize_angle fuel o1, normalize_angle fuel o2 with
  | Some r, Some p, Some y =>
      let o := mk_v3 r p y in
      Some (set_orientation st o (euler_to_quaternion o))
  | _, _, _ => None
  end.

(** [_update_position]. *)
Definition _update_position (st : imu) (accel : v3) (dt : R) : imu :=
  let g0 := v0 accel in let g1 := v1 accel in let g2 := v2 accel - 9.81 in
  let w0 := v0 (velocity st) + g0 * dt in
  let w1 := v1 (velocity st) + g1 * dt in
  let w2 := v2 (velocity st) + g2 * dt in
  let p := mk_v3 (v0 (position st) + w0 * dt) (v1 (position st) + w1 * dt)
                 (v2 (position st) + w2 * dt) in
  let damping := 0.99 in
  mk_imu (is_initialized st) (accel_bias st) (gyro_bias st) (mag_bias st)
    (orientation st) (quaternion st) (mk_v3 (w0 * damping) (w1 * damping) (w2 * damping))
    p (last_update_time st).

(** [_apply_bias_correction]. *)
Definition bias_correct (raw bias : v3) : v3 :=
  mk_v3 (v0 raw - v0 bias) (v1 raw - v1 bias) (v2 raw - v2 bias).

Definition vector_magnitude (v : v3) : R := sqrt (v0 v ^ 2 + v1 v ^ 2 + v2 v ^ 2).

(** *** Dictionaries passed between the IMU and the sensor manager *)

Local Set Warnings "-register-all".
Inductive pyv :=
| PNum (r : R)
| PStr (s : string)
| PTime (t : R)
| PList (l : list pyv)
| PDict (d : list (string * pyv)).

Definition v3_py (v : v3) : pyv := PList [PNum (v0 v); PNum (v1 v); PNum (v2 v)].
Definition quat_py (q : quat) : pyv :=
  PList [PNum (qw q); PNum (qx q); PNum (qy q); PNum (qz q)].

(** [d.get(k, default)] on a dictionary given by its (key, value) pairs. *)
Fixpoint assoc_get (d : list (string * pyv)) (k : string) : option pyv :=
  match d with
  | [] => None
  | (k', v) :: r => if String.eqb k k' then Some v else assoc_get r k
  end.

Definition dict_get (d : pyv) (k : string) (default : pyv) : pyv :=
  match d with
  | PDict l => match assoc_get l k with Some v => v | None => default end
  | _ => default
  end.

(** Truthiness of a dictionary or a list. *)
Definition truthy (v : pyv) : bool :=
  match v with
  | PDict [] | PList [] => false
  | _ => true
  end.

Definition set_last_update (st : imu) (t : R) : imu :=
  mk_imu (is_initialized st) (accel_bias st) (gyro_bias st) (mag_bias st)
    (orientation st) (quaternion st) (velocity st) (position st) (Some t).

(** [IMUSensor.read], given the three raw vectors the hardware returns and
    the current time [now] in seconds. *)
Definition imu_read (fuel : nat) (st : imu) (raw_accel raw_gyro raw_mag : v3) (now : R)
    : option (pyv * imu) :=
  if negb (is_initialized st) then
    Some (PDict [("timestamp", PTime now); ("status", PStr "error");
                 ("error", PStr "IMU sensor not initialized")], st)
  else
    let accel := bias_correct raw_accel (accel_bias st) in
    let gyro := bias_correct raw_gyro (gyro_bias st) in
    let mag := bias_correct raw_mag (mag_bias st) in
    let updated :=
      match last_update_time st with
      | Some t =>
          let dt := now - t in
          match _update_orientation fuel st accel gyro mag dt with
          | Some s => Some (_update_position s accel dt)
          | None => None
          end
      | None => Some st
      end in
    match updated with
    | None => None
    | Some s =>
        let s := set_last_update s now in
        Some (PDict [
          ("timestamp", PTime now);
          ("raw_data", PDict [("accelerometer", v3_py raw_accel);
                              ("gyroscope", v3_py raw_gyro);
                              ("magnetometer", v3_py raw_mag)]);
          ("calibrated_data", PDict [("acceleration", v3_py accel);
                                     ("angular_velocity", v3_py gyro);
                                     ("magnetic_field", v3_py mag)]);
          ("orientation", PDict [("euler", v3_py (orientation s));
                                 ("quaternion", quat_py (quaternion s))]);
          ("motion", PDict [("velocity", v3_py (velocity s));
                            ("position", v3_py (position s));
                            ("acceleration_magnitude", PNum (vector_magnitude accel));
                            ("angular_velocity_magnitude", PNum (vector_magnitude gyro))]);
          ("status", PStr "ok")], s)
    end.

(** *** sensors/sensor_manager.py *)

(** [np.linalg.norm] of a list of numbers; [None] when an element is not a
    number (numpy raises). *)
Fixpoint sum_sq (l : list pyv) : option R :=
  match l with
  | [] => Some 0
  | PNum x :: r => match sum_sq r with Some s => Some (x ^ 2 + s) | None => None end
  | _ => None
  end.

Definition np_norm (v : pyv) : option R :=
  match v with
  | PList l => match sum_sq l with Some s => Some (sqrt s) | None => None end
  | _ => None
  end.

(** [_detect_unusual_movement]; [None] is an exception. *)
Definition _detect_unusual_movement (acceleration : pyv) : option bool :=
  match acceleration with
  | PList l =>
      if negb (truthy acceleration) || negb (Nat.eqb (List.length l) 3) then Some false
      else match np_norm acceleration with
           | Some magnitude => Some (if Rlt_dec 15.0 magnitude then true else false)
           | None => None
           end
  | _ => None
  end.

(** The IMU part of [_process_sensor_data]: the value stored under
    ['unusual_movement'] ([None] when the key is not set, because the IMU
    dictionary is empty), or an exception. *)
Definition process_unusual_movement (imu_data : pyv) : option (option bool) :=
  if truthy imu_data then
    let acceleration := dict_get imu_data "acceleration" (v3_py (mk_v3 0 0 0)) in
    match _detect_unusual_movement acceleration with
    | Some b => Some (Some b)
    | None => None
    end
  else Some None.

(** One IMU step of [_collect_sensor_data]: the dictionary [read] returns
    and what [_process_sensor_data] stores under ['unusual_movement']. *)
Definition collect_imu (fuel : nat) (st : imu) (raw_accel raw_gyro raw_mag : v3) (now : R)
    : option (pyv * option (option bool) * imu) :=
  match imu_read fuel st raw_accel raw_gyro raw_mag now with
  | Some (d, s) => Some (d, process_unusual_movement d, s)
  | None => None
  end.

End Sensors.

(** ** Further operations of [EmergencyDispatcher] *)

Module DispatchOps.
Import PyStr Stamp Dispatch.
Local Open Scope Z_scope.

Local Notation "x <- m ;; k" := (bind m (fun x => k))
  (at level 61, m at next level, right associativity).
Local Notation "m ;;; k" := (bind m (fun _ => k))
  (at level 61, right associativity).

Definition get_state : M dstate := fun _ s => (Ok s, s).

Definition set_status (st : string) (r : erecord) : erecord :=
  mk_record (er_id r) (er_timestamp r) (er_threat_level r) (er_location r)
    (er_data r) (er_actions r) st.

(** [LivestreamService.stop_stream]. *)
Definition stop_stream : M bool := modify (set_streaming false) ;;; ret true.

(** [resolve_emergency(emergency_id, resolution_notes)]: the
    ['resolution_time'] and ['resolution_notes'] keys it adds to the
    dictionary are not modelled, its ['status'] is. *)
Definition resolve_emergency (emergency_id : string) : M bool :=
  catch
    (s <- get_state ;;
     match current_emergency s with
     | Some eid =>
         r <- get_record eid ;;
         if String.eqb (er_id r) emergency_id then
           modify (fun s => set_store (update_nth eid (set_status "resolved") (store s)) s) ;;;
           _ <- stop_stream ;;
           modify (set_current None) ;;;
           ret true
         else ret false
     | None => ret false
     end)
    (fun _ => ret false).

(** [l[start:]] for a Python list and an int [start]. *)
Definition py_slice_from {A} (l : list A) (start : Z) : list A :=
  let n := Z.of_nat (List.length l) in
  let st := if start <? 0 then Z.max 0 (n + start) else Z.min start n in
  skipn (Z.to_nat st) l.

(** [get_emergency_history(limit)]: the records themselves (shared). *)
Definition get_emergency_history (s : dstate) (limit : Z) : list nat :=
  if is_empty (emergency_history s) then [] else py_slice_from (emergency_history s) (- limit).

(** The history after [push_history eid]. *)
Definition pushed (h : list nat) (eid : nat) : list nat :=
  let h' := h ++ [eid] in
  if Nat.ltb max_history_size (List.length h') then List.tl h' else h'.

(** A relation [R] between the state before and after every run of [m]. *)
Definition stable (R : dstate -> dstate -> Prop) {A} (m : M A) : Prop :=
  forall c s, R s (snd (m c s)).

(** The three fields only [dispatch_emergency] itself writes. *)
Definition framed (s s' : dstate) : Prop :=
  current_emergency s' = current_emergency s /\
  emergency_history s' = emergency_history s /\
  List.length (store s') = List.length (store s).

(** No SMS and no change of the livestream. *)
Definition quiet (s s' : dstate) : Prop :=
  sms_outbox s' = sms_outbox s /\ ls_is_streaming s' = ls_is_streaming s.

(** The history is left as it is. *)
Definition same_history (s s' : dstate) : Prop :=
  emergency_history s' = emergency_history s.


End DispatchOps.

(* ------------------------------------------------------------------ *)
(** ** Further sensor operations: the pressure channel's touch state and
    [read], flex and IMU calibration, gesture detection *)

Module SensorOps.
Import Sensors.
Local Open Scope string_scope.
Local Open Scope R_scope.

(** [a > b] on floats. *)
Definition gt_b (a b : R) : bool := if Rlt_dec b a then true else false.

(** *** sensors/pressure_sensor.py *)

(** A [PressureSensor] object: its calibration fields, [is_initialized],
    [is_touching] and [touch_start_time] (a [datetime.now()] value, in
    seconds; a datetime is always truthy). *)
Record pressure_channel := mk_pc {
  pc_cal : pressure_sensor;
  pc_is_initialized : bool;
  is_touching : bool;
  touch_start_time : option R
}.

Definition pc_init : pressure_channel := mk_pc ps_init false false None.

(** [initialize]. *)
Definition pc_initialize (c : pressure_channel) : pressure_channel :=
  mk_pc (pc_cal c) true (is_touching c) (touch_start_time c).

(** [stop]. *)
Definition pc_stop (c : pressure_channel) : pressure_channel :=
  mk_pc (pc_cal c) false false None.

Definition pc_set_sensitivity (c : pressure_channel) (x : R) : pressure_channel :=
  mk_pc (set_sensitivity (pc_cal c) x) (pc_is_initialized c) (is_touching c)
    (touch_start_time c).

(** [calibrate] over the readings it collected: False with no reading. *)
Definition pc_calibrate (c : pressure_channel) (readings : list R) : bool * pressure_channel :=
  (match readings with [] => false | _ => true end,
   mk_pc (ps_calibrate (pc_cal c) readings) (pc_is_initialized c) (is_touching c)
     (touch_start_time c)).

(** [_pressure_to_force]. *)
Definition _pressure_to_force (pressure : R) : R :=
  let force_per_unit := 0.01 in pressure * force_per_unit.

(** [_update_touch_state(pressure)] at time [current_time]. *)
Definition _update_touch_state (c : pressure_channel) (pressure current_time : R)
    : pressure_channel :=
  if Rle_dec (touch_threshold (pc_cal c)) pressure then
    if is_touching c then c
    else mk_pc (pc_cal c) (pc_is_initialized c) true (Some current_time)
  else
    if is_touching c then mk_pc (pc_cal c) (pc_is_initialized c) false None
    else c.

(** [_get_touch_duration()] at time [now]. *)
Definition _get_touch_duration (c : pressure_channel) (now : R) : R :=
  if negb (is_touching c) then 0
  else match touch_start_time c with Some t => now - t | None => 0 end.

(** The dictionary [read] returns, without its location, timestamp and
    error-message keys; [pr_status_ok] is [status == 'ok']. *)
Record pressure_reading := mk_pr {
  pr_raw_value : R;
  pr_value : R;
  pr_pressure_percentage : R;
  pr_force_newton : R;
  pr_is_touching : bool;
  pr_touch_duration : R;
  pr_status_ok : bool
}.

Definition error_reading : pressure_reading := mk_pr 0.0 0.0 0.0 0.0 false 0.0 false.

(** [read()] for the hardware value [raw_value]; [t_touch] and [t_dur] are
    the [datetime.now()] values read by [_update_touch_state] and by
    [_get_touch_duration].  A division by a zero [max_pressure] raises
    ZeroDivisionError, caught into the error dictionary after the touch
    state was updated. *)
Definition pc_read (c : pressure_channel) (raw_value t_touch t_dur : R)
    : pressure_reading * pressure_channel :=
  if negb (pc_is_initialized c) then (error_reading, c)
  else
    let calibrated_value := ps_apply_calibration (pc_cal c) raw_value in
    let c' := _update_touch_state c calibrated_value t_touch in
    if Req_EM_T (max_pressure (pc_cal c')) 0 then (error_reading, c')
    else
      (mk_pr raw_value calibrated_value
         (calibrated_value / max_pressure (pc_cal c') * 100)
         (_pressure_to_force calibrated_value)
         (is_touching c') (_get_touch_duration c' t_dur) true, c').

(** The calls a pressure channel receives. *)
Inductive pc_op :=
| PcInitialize
| PcStop
| PcSetSensitivity (x : R)
| PcCalibrate (readings : list R)
| PcRead (raw_value t_touch t_dur : R).

Definition pc_step (c : pressure_channel) (o : pc_op) : pressure_channel :=
  match o with
  | PcInitialize => pc_initialize c
  | PcStop => pc_stop c
  | PcSetSensitivity x => pc_set_sensitivity c x
  | PcCalibrate l => snd (pc_calibrate c l)
  | PcRead raw t1 t2 => snd (pc_read c raw t1 t2)
  end.

Definition pc_session (ops : list pc_op) : pressure_channel := fold_left pc_step ops pc_init.

(** *** sensors/flex_sensor.py *)

(** [FlexSensor.__init__]. *)
Definition fs_init : flex_sensor := mk_fs 0.0 1.0 0.0.

(** [calibrate] over the readings it collected: with none, the division
    raises before any field is written and False is returned. *)
Definition fs_calibrate (s : flex_sensor) (readings : list R) : bool * flex_sensor :=
  match readings with
  | [] => (false, s)
  | _ =>
      let baseline := mean readings in
      (true, mk_fs (baseline - 0.1) (baseline + 0.5) baseline)
  end.

(** *** sensors/imu_sensor.py *)

(** [calibrate] over the (accelerometer, gyroscope, magnetometer) samples
    it collected: per-component means, gravity removed from the z bias;
    with no sample the division raises and False is returned. *)
Definition imu_calibrate (st : imu) (samples : list (v3 * v3 * v3)) : bool * imu :=
  match samples with
  | [] => (false, st)
  | _ =>
      let accel_samples := map (fun s => fst (fst s)) samples in
      let gyro_samples := map (fun s => snd (fst s)) samples in
      let mag_samples := map snd samples in
      let comp_mean (l : list v3) :=
        mk_v3 (mean (map v0 l)) (mean (map v1 l)) (mean (map v2 l)) in
      let ab := comp_mean accel_samples in
      let ab := mk_v3 (v0 ab) (v1 ab) (v2 ab - 9.81) in
      (true, mk_imu (is_initialized st) ab (comp_mean gyro_samples) (comp_mean mag_samples)
               (orientation st) (quaternion st) (velocity st) (position st)
               (last_update_time st))
  end.

(** *** sensors/sensor_manager.py *)

Definition count_if (f : R -> bool) (l : list R) : nat := List.length (filter f l).

(** [_detect_gestures(flex_values)]. *)
Definition _detect_gestures (flex_values : list R) : list string :=
  if Nat.ltb (List.length flex_values) 5 then []
  else
    let closed_threshold := 0.7 in
    let open_threshold := 0.3 in
    let closed_fingers := count_if (fun value => gt_b value closed_threshold) flex_values in
    let open_fingers := count_if (fun value => gt_b open_threshold value) flex_values in
    if Nat.eqb closed_fingers 5 then ["fist"]
    else if Nat.eqb open_fingers 5 then ["open_hand"]
    else if Nat.eqb closed_fingers 4 && gt_b open_threshold (nth 1 flex_values 0)
    then ["pointing"]
    else if Nat.eqb closed_fingers 3 && gt_b open_threshold (nth 1 flex_values 0)
            && gt_b open_threshold (nth 4 flex_values 0)
    then ["peace_sign"]
    else [].

(** [_detect_emergency_gesture(processed)]: [movement_magnitude] is
    [None] when the key is not set (default 0). *)
Definition _detect_emergency_gesture (gestures : list string)
    (movement_magnitude : option R) : bool :=
  if existsb (String.eqb "fist") gestures then
    gt_b (match movement_magnitude with Some m => m | None => 0 end) 10
  else false.

(** [np.mean(l) if l else 0]. *)
Definition mean_or_0 (l : list R) : R := match l with [] => 0 | _ => mean l end.

(** The dictionary [_process_sensor_data] returns; the IMU keys are
    [None] when the IMU dictionary is empty and they are not set. *)
Record processed := mk_processed {
  finger_positions : list R;
  hand_closure : R;
  gestures : list string;
  p_acceleration : option pyv;
  movement_magnitude : option R;
  p_unusual_movement : option bool;
  pressure_points : list R;
  grip_strength : R;
  p_emergency_gesture : bool
}.

(** [_process_sensor_data] for the ['value'] entries of the flex and
    pressure readings (both [read] methods always set a number there) and
    the IMU dictionary; [None] is an exception. *)
Definition _process_sensor_data (flex_values : list R) (imu_data : pyv)
    (pressure_values : list R) : option processed :=
  let g := _detect_gestures flex_values in
  let imu_part :=
    if truthy imu_data then
      let acceleration := dict_get imu_data "acceleration" (v3_py (mk_v3 0 0 0)) in
      match np_norm acceleration with
      | Some m =>
          match _detect_unusual_movement acceleration with
          | Some u => Some (Some acceleration, Some m, Some u)
          | None => None
          end
      | None => None
      end
    else Some (None, None, None) in
  match imu_part with
  | Some (acc, m, u) =>
      Some (mk_processed flex_values (mean_or_0 flex_values) g acc m u
              pressure_values (mean_or_0 pressure_values) (_detect_emergency_gesture g m))
  | None => None
  end.

End SensorOps.

(* ------------------------------------------------------------------ *)
(** ** core/config_manager.py *)

Module Config.
Local Open Scope string_scope.

(** A JSON value as [json.load] returns it; a dict is the list of its
    (key, value) pairs in insertion order. *)
Local Set Warnings "-register-all".
Inductive jv :=
| JNone
| JBool (b : bool)
| JInt (z : Z)
| JFloat (q : Q)
| JStr (s : string)
| JList (l : list jv)
| JDict (d : list (string * jv)).

Definition dict := list (string * jv).

(** [key.split('.')]: always at least one piece. *)
Fixpoint split_dot (s : string) : list string :=
  match s with
  | EmptyString => [EmptyString]
  | String c r =>
      let parts := split_dot r in
      if Ascii.eqb c "." then EmptyString :: parts
      else match parts with
           | p :: ps => String c p :: ps
           | [] => [String c EmptyString]
           end
  end.

(** [d[k]] for a dict; [None] is a KeyError. *)
Fixpoint dget (d : dict) (k : string) : option jv :=
  match d with
  | [] => None
  | (k', v) :: r => if String.eqb k k' then Some v else dget r k
  end.

(** [d[k] = v]: an existing key keeps its place, a new one goes last. *)
Fixpoint dset (d : dict) (k : string) (v : jv) : dict :=
  match d with
  | [] => [(k, v)]
  | (k', v') :: r => if String.eqb k k' then (k', v) :: r else (k', v') :: dset r k v
  end.

(** [_load_default_config]. *)
Definition default_config : dict :=
  [("system", JDict [("name", JStr "VisionGlove"); ("version", JStr "1.0.0");
                     ("debug_mode", JBool false); ("log_level", JStr "INFO")]);
   ("sensors", JDict [("enabled", JBool true); ("sample_rate", JInt 100);
                      ("calibration_required", JBool true); ("timeout", JFloat (5 # 1))]);
   ("vision", JDict [("enabled", JBool true); ("camera_index", JInt 0);
                     ("resolution", JList [JInt 640; JInt 480]); ("fps", JInt 30);
                     ("detection_threshold", JFloat (7 # 10)); ("person_threshold", JInt 3)]);
   ("haptics", JDict [("enabled", JBool true); ("intensity", JFloat (8 # 10));
                      ("duration", JFloat (1 # 1)); ("pattern", JStr "pulse")]);
   ("communications", JDict [("emergency_contact", JStr ""); ("police_number", JStr "");
                             ("sms_service", JDict [("provider", JStr "twilio");
                                                    ("account_sid", JStr "");
                                                    ("auth_token", JStr "");
                                                    ("from_number", JStr "")])]);
   ("security", JDict [("encryption_enabled", JBool true);
                       ("key_rotation_interval", JInt 3600); ("max_failed_attempts", JInt 3)]);
   ("livestream", JDict [("enabled", JBool true); ("quality", JStr "medium");
                         ("platform", JStr "youtube"); ("stream_key", JStr "");
                         ("max_duration", JInt 3600)])].

(** The loop of [get]: [value = value[k]] for each key; [None] is the
    KeyError (missing key) or TypeError (not a dict) it catches. *)
Fixpoint get_path (value : jv) (keys : list string) : option jv :=
  match keys with
  | [] => Some value
  | k :: ks =>
      match value with
      | JDict d => match dget d k with Some v => get_path v ks | None => None end
      | _ => None
      end
  end.

(** [get(key, default)]. *)
Definition get (config : dict) (key : string) (default : jv) : jv :=
  match get_path (JDict config) (split_dot key) with Some v => v | None => default end.

(** The body of [set] on the key path: a missing key on the way gets a
    new dict; [None] is the TypeError raised when the way runs through a
    value that is not a dict ([in] or item assignment on it fails), which
    happens before any dict is changed. *)
Fixpoint set_path (d : dict) (keys : list string) (value : jv) : option dict :=
  match keys with
  | [] => None
  | [k] => Some (dset d k value)
  | k :: ks =>
      match dget d k with
      | None => option_map (fun d' => dset d k (JDict d')) (set_path [] ks value)
      | Some (JDict sub) => option_map (fun d' => dset d k (JDict d')) (set_path sub ks value)
      | Some _ => None
      end
  end.

(** [set(key, value)]. *)
Definition set (config : dict) (key : string) (value : jv) : option dict :=
  set_path config (split_dot key) value.

(** Whether a value is a dict. *)
Definition is_dict (v : jv) : bool := match v with JDict _ => true | _ => false end.

(** [get_section(section)]. *)
Definition get_section (config : dict) (section : string) : jv :=
  match dget config section with Some v => v | None => JDict [] end.

(** [load_config] for a file holding a JSON object:
    [self.config.update(file_config)]. *)
Definition load_config (config : dict) (file_config : dict) : dict :=
  fold_left (fun d kv => dset d (fst kv) (snd kv)) file_config config.

End Config.

(* ------------------------------------------------------------------ *)
(** ** core/glove_system.py : the main loop's cycle *)

Module GloveLoop.
Import Sensors Config.
Local Open Scope string_scope.
Local Open Scope R_scope.

(** Truthiness of a value ([False] and [True] are the ints 0 and 1). *)
Definition py_bool (v : pyv) : bool :=
  match v with
  | PNum r => if Req_EM_T r 0 then false else true
  | PStr s => negb (String.eqb s EmptyString)
  | PTime _ => true
  | PList l => match l with [] => false | _ => true end
  | PDict d => match d with [] => false | _ => true end
  end.

(** A configuration value used as a number in a comparison; [None] when
    the comparison raises TypeError. *)
Definition jv_num (v : jv) : option R :=
  match v with
  | JInt z => Some (IZR z)
  | JFloat q => Some (Q2R q)
  | JBool b => Some (if b then 1 else 0)
  | _ => None
  end.

(** [_analyze_threat_level(sensor_data, vision_data)] on the two
    dictionaries, with [self.config.get('vision.person_threshold')];
    [None] is the TypeError of a comparison with a non-number. *)
Definition _analyze_threat_level (person_threshold : jv) (sensor_data vision_data : pyv)
    : option Z :=
  let threat_level := 0%Z in
  match dict_get vision_data "person_count" (PNum 0), jv_num person_threshold with
  | PNum pc, Some th =>
      let threat_level :=
        if Rle_dec th pc then Z.max threat_level 1 else threat_level in
      let threat_level :=
        if py_bool (dict_get sensor_data "unusual_movement" (PNum 0))
        then Z.max threat_level 2 else threat_level in
      let threat_level :=
        if py_bool (dict_get sensor_data "emergency_gesture" (PNum 0))
        then 3%Z else threat_level in
      Some threat_level
  | _, _ => None
  end.

(** [HapticController.threat_feedback(threat_level)]: the pattern it
    activates, if any. *)
Definition threat_feedback (threat_level : Z) : option string :=
  if Z.eqb threat_level 0 then None
  else Some (match threat_level with
             | 1%Z => "gentle_pulse"
             | 2%Z => "rapid_pulse"
             | 3%Z => "continuous_buzz"
             | _ => "gentle_pulse"
             end).

(** The system fields the cycle touches, the haptic patterns activated
    and the levels passed to [dispatch_emergency]. *)
Record glove_state := mk_gs {
  gs_threat_level : Z;
  gs_last_update : option R;
  haptic_log : list string;
  dispatch_log : list Z
}.

(** [VisionGloveSystem.__init__]. *)
Definition gs_init : glove_state := mk_gs 0 None [] [].

(** [_handle_threat_change(new_level)], with the haptic controller and
    the dispatcher present or not. *)
Definition _handle_threat_change (has_haptic has_dispatcher : bool) (new_level : Z)
    (g : glove_state) : glove_state :=
  let hl :=
    if has_haptic then
      match threat_feedback new_level with
      | Some p => (haptic_log g ++ [p])%list
      | None => haptic_log g
      end
    else haptic_log g in
  let dl :=
    if (3 <=? new_level)%Z && has_dispatcher then (dispatch_log g ++ [new_level])%list
    else dispatch_log g in
  mk_gs (gs_threat_level g) (gs_last_update g) hl dl.

(** [SensorManager.get_latest_data] and [VisionProcessor.process_frame]:
    a copy of the stored dictionary, or [{}]. *)
Definition get_latest_data (latest_data : pyv) : pyv :=
  if truthy latest_data then latest_data else PDict [].

Definition process_frame (latest_analysis : pyv) : pyv :=
  if truthy latest_analysis then latest_analysis else PDict [].

(** [_process_cycle()] at time [current_time], given the dictionaries the
    two subsystems return; [None] is an exception (the main loop logs it
    and the state is unchanged). *)
Definition _process_cycle (person_threshold : jv) (has_haptic has_dispatcher : bool)
    (sensor_data vision_data : pyv) (current_time : R) (g : glove_state)
    : option glove_state :=
  match _analyze_threat_level person_threshold sensor_data vision_data with
  | Some new_threat_level =>
      let g :=
        if negb (Z.eqb new_threat_level (gs_threat_level g))
        then _handle_threat_change has_haptic has_dispatcher new_threat_level g
        else g in
      Some (mk_gs new_threat_level (Some current_time) (haptic_log g) (dispatch_log g))
  | None => None
  end.

(** The dictionary [SensorManager._collect_sensor_data] stores in
    [latest_data]. *)
Definition collected_data (timestamp flex_sensors imu pressure_sensors processed : pyv) : pyv :=
  PDict [("timestamp", timestamp); ("flex_sensors", flex_sensors); ("imu", imu);
         ("pressure_sensors", pressure_sensors); ("processed", processed)].

(** The dictionaries [VisionProcessor._analyze_frame] stores in
    [latest_analysis]: a full analysis, or the error dictionary. *)
Definition frame_analysis (timestamp frame_shape persons gestures threats summary : pyv) : pyv :=
  PDict [("timestamp", timestamp); ("frame_shape", frame_shape); ("persons", persons);
         ("gestures", gestures); ("threats", threats); ("summary", summary)].

Definition frame_analysis_error (timestamp error summary : pyv) : pyv :=
  PDict [("timestamp", timestamp); ("error", error); ("summary", summary)].

(** What [latest_data] and [latest_analysis] can hold: their initial
    [{}] or a dictionary built by the subsystem. *)
Inductive sensor_latest : pyv -> Prop :=
| SlEmpty : sensor_latest (PDict [])
| SlCollected ts f i p pr : sensor_latest (collected_data ts f i p pr).

Inductive vision_latest : pyv -> Prop :=
| VlEmpty : vision_latest (PDict [])
| VlAnalysis ts sh pe ge th su : vision_latest (frame_analysis ts sh pe ge th su)
| VlError ts e su : vision_latest (frame_analysis_error ts e su).

(** A run of the main loop: one cycle per (stored sensor data, stored
    analysis, time) triple; a cycle that raises leaves the state as it
    was. *)
Fixpoint main_loop (person_threshold : jv) (has_haptic has_dispatcher : bool)
    (inputs : list (pyv * pyv * R)) (g : glove_state) : glove_state :=
  match inputs with
  | [] => g
  | (sd, vd, t) :: rest =>
      let g' :=
        match _process_cycle person_threshold has_haptic has_dispatcher
                (get_latest_data sd) (process_frame vd) t g with
        | Some g' => g'
        | None => g
        end in
      main_loop person_threshold has_haptic has_dispatcher rest g'
  end.

End GloveLoop.

(* ================================================================== *)
(** * Scenarios used below *)

Module Scenarios.
Import PyStr Stamp Dispatch.
Local Open Scope Z_scope.

Definition noon : datetime := mk_datetime 2024 1 1 12 0 0 500.
Definition at_noon (us : Z) : datetime := mk_datetime 2024 1 1 12 0 0 us.

(** Two successive dispatches of caution level from [s0], at the timestamps
    [t1] and [t2]. *)
Definition two_dispatches (h : string -> Z) (sms : nat -> string -> string -> bool)
    (cf : dconf) (s0 : dstate) (t1 t2 : timestamp) : res bool * res bool * dstate :=
  let (r1, s1) := dispatch_emergency h sms (mk_data (Some 1) (Some t1) None) cf s0 in
  let (r2, s2) := dispatch_emergency h sms (mk_data (Some 1) (Some t2) None) cf s1 in
  (r1, r2, s2).

End Scenarios.

Module ImuScenarios.
Import Sensors.
Local Open Scope R_scope.

(** An initialised IMU with zero biases, at rest, last read at time 0. *)
Definition imu_at (o : v3) : imu :=
  mk_imu true (mk_v3 0 0 0) (mk_v3 0 0 0) (mk_v3 0 0 0) o (euler_to_quaternion o)
    (mk_v3 0 0 0) (mk_v3 0 0 0) (Some 0).

(** The same IMU before its first read. *)
Definition imu_fresh : imu :=
  mk_imu true (mk_v3 0 0 0) (mk_v3 0 0 0) (mk_v3 0 0 0) (mk_v3 0 0 0)
    (mk_quat 1 0 0 0) (mk_v3 0 0 0) (mk_v3 0 0 0) None.

End ImuScenarios.

(* ================================================================== *)
(** * Properties *)

(* ------------------------------------------------------------------ *)
(** ** The threat evaluator *)

Section ThreatProofs.
Import Threat.
Local Open Scope Z_scope.

Example analyze_crowd :
  _analyze_threat_level 3 {| unusual_movement := false; emergency_gesture := false |}
    {| person_count := 4 |} = 1.
Proof. reflexivity. Qed.

Example analyze_gesture_only :
  _analyze_threat_level 3 {| unusual_movement := false; emergency_gesture := true |}
    {| person_count := 0 |} = 3.
Proof. reflexivity. Qed.

(** Claim C2: [_analyze_threat_level] is the maximum of the triggered floors
    (1 for person_count >= person_threshold, 2 for unusual_movement, 3 for
    emergency_gesture; 0 when none is triggered); it is exactly 3 whenever
    emergency_gesture holds, and it is monotone in its inputs. *)
Theorem analyze_threat_level_max_of_floors :
  forall (person_threshold : Z) (s : sensor_view) (v : vision_view),
    _analyze_threat_level person_threshold s v = spec_level person_threshold s v /\
    (emergency_gesture s = true -> _analyze_threat_level person_threshold s v = 3) /\
    (forall (s' : sensor_view) (v' : vision_view),
        person_count v <= person_count v' ->
        Bool.le (unusual_movement s) (unusual_movement s') ->
        Bool.le (emergency_gesture s) (emergency_gesture s') ->
        _analyze_threat_level person_threshold s v <=
        _analyze_threat_level person_threshold s' v').
Proof.
  intros th [um eg] [pc].
  unfold _analyze_threat_level, spec_level, triggered_floors; simpl.
  split; [| split].
  - destruct (pc >=? th), um, eg; simpl; lia.
  - intros ->; reflexivity.
  - intros [um' eg'] [pc'] Hpc Hum Heg; simpl in *.
    destruct (Z.geb_spec pc th), (Z.geb_spec pc' th);
      destruct um, um', eg, eg'; simpl in *; try contradiction; lia.
Qed.

Lemma analyze_threat_level_max_of_floors_witness :
  _analyze_threat_level 3 {| unusual_movement := true; emergency_gesture := true |}
    {| person_count := 0 |} = 3.
Proof.
  apply (proj1 (proj2 (analyze_threat_level_max_of_floors 3
    {| unusual_movement := true; emergency_gesture := true |} {| person_count := 0 |}))).
  reflexivity.
Defined.

End ThreatProofs.

(* ------------------------------------------------------------------ *)
(** ** The emergency dispatcher *)

Section DispatchProofs.
Import PyStr Stamp Dispatch Scenarios.
Local Open Scope Z_scope.

Example str_int_500 : str_int 500 = "500"%string.
Proof. reflexivity. Qed.

Example contacts_split : emergency_contacts (init_conf "alice, ,bob" "" true noon)
  = ["alice"; " "; "bob"]%string.
Proof. reflexivity. Qed.

(** A finite search on [0..k]. *)
Lemma search_le (P : nat -> Prop) (dec : forall i, {P i} + {~ P i}) :
  forall k, {i : nat | (i <= k)%nat /\ P i} + {forall i, (i <= k)%nat -> ~ P i}.
Proof.
  induction k as [| k IH].
  - destruct (dec 0%nat) as [H | H].
    + left; exists 0%nat; split; [lia | exact H].
    + right; intros i Hi; replace i with 0%nat by lia; exact H.
  - destruct IH as [[i [Hi Hp]] | Hno].
    + left; exists i; split; [lia | exact Hp].
    + destruct (dec (S k)) as [H | H].
      * left; exists (S k); split; [lia | exact H].
      * right; intros i Hi.
        destruct (Nat.eq_dec i (S k)) as [-> | Hne]; [exact H |].
        apply Hno; lia.
Qed.

(** Pigeonhole: [n + 1] values below [n] contain a repetition. *)
Lemma pigeonhole : forall n (g : nat -> nat),
  (forall i, (i <= n)%nat -> (g i < n)%nat) ->
  exists i j, (i < j)%nat /\ (j <= n)%nat /\ g i = g j.
Proof.
  induction n as [| k IH]; intros g Hg.
  - specialize (Hg 0%nat (le_n 0)); lia.
  - destruct (search_le (fun i => g i = g (S k)) (fun i => Nat.eq_dec (g i) (g (S k))) k)
      as [[i [Hi Heq]] | Hno].
    + exists i, (S k); repeat split; [lia | lia | exact Heq].
    + set (c := g (S k)).
      assert (Hc : (c <= k)%nat) by (pose proof (Hg (S k) (le_n _)); unfold c; lia).
      destruct (IH (fun i => if Nat.ltb (g i) c then g i else Nat.pred (g i))) as
        [i [j [Hij [Hj Heq]]]].
      { intros i Hi. pose proof (Hg i ltac:(lia)). pose proof (Hno i Hi).
        fold c in H0. destruct (Nat.ltb_spec (g i) c); lia. }
      exists i, j; repeat split; try lia.
      pose proof (Hno i ltac:(lia)); pose proof (Hno j ltac:(lia)).
      fold c in H, H0.
      destruct (Nat.ltb_spec (g i) c), (Nat.ltb_spec (g j) c); lia.
Qed.

Lemma two_dispatches_same_bucket :
  forall h sms cf u1 u2,
    h (str_int u1) mod 1000 = h (str_int u2) mod 1000 ->
    let '(r1, r2, s2) := two_dispatches h sms cf init_state
                           (TsDatetime (at_noon u1)) (TsDatetime (at_noon u2)) in
    r1 = Ok true /\ r2 = Ok true /\
    match store s2 with [e1; e2] => er_id e1 = er_id e2 | _ => False end.
Proof.
  intros h sms cf u1 u2 Heq. cbn. rewrite Heq. repeat split.
Qed.

(** Claim C5: the generated ids are not unique within a session.  Passing
    the same timestamp twice yields the same id; and for every string hash
    of the session there are two microsecond values [u1 < u2 <= 1000] of the
    same second whose dispatches create two records with equal ids. *)
Theorem emergency_ids_collide :
  forall (h : string -> Z) (sms : nat -> string -> string -> bool) (cf : dconf),
    (let '(r1, r2, s2) := two_dispatches h sms cf init_state
                            (TsDatetime noon) (TsDatetime noon) in
     r1 = Ok true /\ r2 = Ok true /\
     match store s2 with [e1; e2] => er_id e1 = er_id e2 | _ => False end) /\
    exists u1 u2 : Z, 0 <= u1 < u2 /\ u2 <= 1000 /\
      let '(r1, r2, s2) := two_dispatches h sms cf init_state
                             (TsDatetime (at_noon u1)) (TsDatetime (at_noon u2)) in
      r1 = Ok true /\ r2 = Ok true /\
      match store s2 with [e1; e2] => er_id e1 = er_id e2 | _ => False end.
Proof.
  intros h sms cf. split.
  - apply (two_dispatches_same_bucket h sms cf 500 500); reflexivity.
  - destruct (pigeonhole 1000 (fun i => Z.to_nat (h (str_int (Z.of_nat i)) mod 1000)))
      as [i [j [Hij [Hj Heq]]]].
    { intros i _. pose proof (Z.mod_pos_bound (h (str_int (Z.of_nat i))) 1000 ltac:(lia)).
      lia. }
    exists (Z.of_nat i), (Z.of_nat j). split; [lia | split; [lia |]].
    apply two_dispatches_same_bucket.
    pose proof (Z.mod_pos_bound (h (str_int (Z.of_nat i))) 1000 ltac:(lia)).
    pose proof (Z.mod_pos_bound (h (str_int (Z.of_nat j))) 1000 ltac:(lia)).
    apply Z2Nat.inj; lia.
Qed.

(** [LivestreamService.is_streaming] is never callable: the bool bound in
    [__init__] hides the method. *)
Lemma call_is_streaming_raises : forall c s,
  call_is_streaming c s = (Raise TypeError, s).
Proof. reflexivity. Qed.

(** Claim C1: at level EMERGENCY, with a police number configured and
    auto response on, the police SMS is attempted once, but the
    ensure-running step calls [is_streaming()], which raises; with
    [stream_config['enabled']] false the livestream is never started, the
    dispatch returns False and the record is not put in the history. *)
Theorem emergency_level_livestream_not_ensured :
  forall (h : string -> Z) (sms : nat -> string -> string -> bool),
    let '(r, s) := dispatch_emergency h sms (mk_data (Some 3) (Some (TsDatetime noon)) None)
                     (init_conf "alice" "911" false noon) init_state in
    r = Ok false /\ ls_is_streaming s = false /\
    List.length (filter (fun m => String.eqb (fst m) "911") (sms_outbox s)) = 1%nat /\
    emergency_history s = [] /\ current_emergency s = Some 0%nat.
Proof. intros h sms. vm_compute. repeat split. Qed.

(** Claim C3, as stated, fails for a [datetime.time] timestamp: it has
    [strftime] and [microsecond], so the record is created and the dispatch
    returns True. *)
Lemma dispatch_time_of_day_succeeds :
  let '(r, s) := dispatch_emergency (fun _ => 0) (fun _ _ _ => true)
                   (mk_data (Some 1) (Some (TsTime (mk_time 12 0 0 500))) None)
                   (init_conf "" "" true noon) init_state in
  r = Ok true /\ current_emergency s = Some 0%nat /\ emergency_history s = [0%nat].
Proof. vm_compute. repeat split. Qed.

(** Claim C3 (amended): when the timestamp has no [strftime] method or no
    [microsecond] attribute (the float of [time.time()], an int, a string,
    [None], a [date]), [dispatch_emergency] returns False and leaves the whole
    state unchanged: no record, no current emergency, no history entry, no
    SMS and no livestream action. *)
Theorem dispatch_without_datetime_fails_cleanly :
  forall (h : string -> Z) (sms : nat -> string -> string -> bool)
         (ed : emergency_data) (cf : dconf) (s : dstate) (t : timestamp),
    ed_timestamp ed = Some t ->
    strftime t "%Y%m%d_%H%M%S" = None \/ microsecond_of t = None ->
    dispatch_emergency h sms ed cf s = (Ok false, s).
Proof.
  intros h sms [tl ts loc] cf s t Ht Hattr; simpl in Ht; subst ts.
  destruct t; destruct Hattr as [Hattr | Hattr]; try discriminate; reflexivity.
Qed.

Lemma dispatch_without_datetime_fails_cleanly_witness :
  dispatch_emergency (fun _ => 0) (fun _ _ _ => true)
    (mk_data (Some 3) (Some (TsFloat 1718000000.25)) (Some "Unknown"%string))
    (init_conf "alice" "911" true noon) init_state = (Ok false, init_state).
Proof.
  apply (dispatch_without_datetime_fails_cleanly _ _ _ _ _ (TsFloat 1718000000.25));
    [reflexivity | left; reflexivity].
Defined.

Lemma update_nth_compose {A} : forall n (f g : A -> A) l,
  update_nth n f (update_nth n g l) = update_nth n (fun x => f (g x)) l.
Proof.
  induction n as [| n IH]; intros f g [| x l]; simpl; try reflexivity.
  rewrite IH; reflexivity.
Qed.

Lemma update_nth_ext {A} : forall n (f g : A -> A) l,
  (forall x, f x = g x) -> update_nth n f l = update_nth n g l.
Proof.
  induction n as [| n IH]; intros f g [| x l] Hfg; simpl; try reflexivity.
  - rewrite Hfg; reflexivity.
  - rewrite (IH f g l Hfg); reflexivity.
Qed.

Lemma update_nth_id {A} : forall n (f : A -> A) l,
  (forall x, f x = x) -> update_nth n f l = l.
Proof.
  induction n as [| n IH]; intros f [| x l] Hf; simpl; try reflexivity.
  - rewrite Hf; reflexivity.
  - rewrite (IH f l Hf); reflexivity.
Qed.

Lemma add_actions_nil : forall r, add_actions [] r = r.
Proof. intros []; unfold add_actions; simpl; rewrite app_nil_r; reflexivity. Qed.

Lemma add_actions_cons : forall a l r,
  add_actions l (add_action a r) = add_actions (a :: l) r.
Proof. intros a l []; unfold add_actions, add_action; simpl; rewrite <- app_assoc; reflexivity. Qed.

Lemma add_actions_app : forall l1 l2 r,
  add_actions l2 (add_actions l1 r) = add_actions (l1 ++ l2) r.
Proof. intros l1 l2 []; unfold add_actions; simpl; rewrite <- app_assoc; reflexivity. Qed.

(** The contact loop of [_handle_alert_level]: each non-blank stripped entry
    is sent once, in order, and its outcome appended, whatever the earlier
    outcomes were. *)
Lemma contact_loop_effect :
  forall sms eid message cf contacts s,
    for_each contacts (fun contact =>
      if String.eqb (strip contact) "" then ret tt
      else bind (send_sms sms (strip contact) message)
             (fun success => append_action eid (SmsSent (strip contact) success))) cf s =
    (Ok tt, mk_state (ls_is_streaming s)
              (sms_outbox s ++ map (fun c => (c, message)) (attempted contacts))
              (update_nth eid
                 (add_actions (sent_actions sms (List.length (sms_outbox s)) message contacts))
                 (store s))
              (current_emergency s) (emergency_history s)).
Proof.
  intros sms eid message cf contacts.
  induction contacts as [| c cs IH]; intros s.
  - simpl. rewrite app_nil_r, update_nth_id by exact add_actions_nil.
    destruct s; reflexivity.
  - simpl for_each. unfold bind at 1.
    unfold attempted; simpl map; simpl filter; simpl sent_actions.
    destruct (String.eqb (strip c) "") eqn:E; simpl negb; cbv iota beta.
    + unfold ret. rewrite IH. reflexivity.
    + unfold send_sms, append_action, modify, bind, push_sms, set_store. simpl.
      rewrite IH. simpl. rewrite length_app; simpl.
      rewrite <- app_assoc, update_nth_compose, Nat.add_1_r.
      f_equal. f_equal.
      apply update_nth_ext; intros x. apply add_actions_cons.
Qed.

Lemma bind_ok {A B} : forall (m : M A) (k : A -> M B) c s a s',
  m c s = (Ok a, s') -> bind m k c s = k a c s'.
Proof. intros m k c s a s' H. unfold bind. rewrite H. reflexivity. Qed.

Lemma get_record_ok : forall eid c s r,
  nth_error (store s) eid = Some r -> get_record eid c s = (Ok r, s).
Proof. intros eid c s r H. unfold get_record. rewrite H. reflexivity. Qed.

Lemma contact_message_ok : forall r c s t,
  strftime (er_timestamp r) "%H:%M:%S" = Some t ->
  _create_alert_message r false c s =
  (Ok (contact_text (er_threat_level r) (er_location r) t), s).
Proof. intros r c s t H. unfold _create_alert_message, bind. simpl. rewrite H. reflexivity. Qed.

Lemma stream_step_effect : forall eid cf s,
  when (stream_enabled cf)
    (bind start_emergency_stream
       (fun stream_success => append_action eid (LivestreamStarted stream_success))) cf s =
  (Ok tt, mk_state (stream_enabled cf || ls_is_streaming s) (sms_outbox s)
            (update_nth eid (add_actions (if stream_enabled cf then [LivestreamStarted true] else []))
               (store s))
            (current_emergency s) (emergency_history s)).
Proof.
  intros eid cf s. destruct (stream_enabled cf); simpl.
  - reflexivity.
  - rewrite update_nth_id by exact add_actions_nil. destruct s; reflexivity.
Qed.

(** Claim C7 (amended): with auto response on, the contact loop of
    [_handle_alert_level] sends to every non-blank stripped contact entry
    exactly once, in order, and appends each outcome to the record's
    [actions_taken], whatever the outcomes of [send_sms] are; the livestream
    start step then runs (and is logged) exactly when
    [stream_config['enabled']] holds. *)
Theorem alert_level_partial_failure_isolation :
  forall (sms : nat -> string -> string -> bool) (eid : nat) (cf : dconf) (s : dstate)
         (r : erecord) (t : string),
    nth_error (store s) eid = Some r ->
    strftime (er_timestamp r) "%H:%M:%S" = Some t ->
    auto_response_enabled cf = true ->
    let message := contact_text (er_threat_level r) (er_location r) t in
    _handle_alert_level sms eid cf s =
    (Ok tt, mk_state (stream_enabled cf || ls_is_streaming s)
        (sms_outbox s ++ map (fun c => (c, message)) (attempted (emergency_contacts cf)))
        (update_nth eid (add_actions (sent_actions sms (List.length (sms_outbox s)) message (emergency_contacts cf) ++ (if stream_enabled cf then [LivestreamStarted true] else []))) (store s))
        (current_emergency s) (emergency_history s)).
Proof.
  intros sms eid cf s r t Hr Ht Hauto message.
  unfold _handle_alert_level, bind at 1, ask. rewrite Hauto, andb_true_r.
  destruct (emergency_contacts cf) as [| c cs] eqn:Ec; simpl is_empty; simpl negb.
  - unfold when at 1, bind at 1, ret at 1.
    rewrite stream_step_effect. simpl. rewrite app_nil_r. reflexivity.
  - unfold when at 1. unfold bind at 1.
    rewrite (bind_ok _ _ _ _ _ _ (get_record_ok _ _ _ _ Hr)).
    rewrite (bind_ok _ _ _ _ _ _ (contact_message_ok _ _ _ _ Ht)).
    rewrite <- Ec, contact_loop_effect.
    rewrite stream_step_effect. simpl.
    rewrite update_nth_compose. f_equal. f_equal.
    apply update_nth_ext; intros x. apply add_actions_app.
Qed.

Lemma alert_level_partial_failure_isolation_witness :
  let r := mk_record "VG_20240101_120000_000" (TsDatetime noon) 2 "Unknown"
             (mk_data (Some 2) (Some (TsDatetime noon)) None) [LoggedEvent] "active" in
  let s := mk_state false [] [r] (Some 0%nat) [] in
  let cf := init_conf "alice,bob" "" true noon in
  let sms := fun n _ _ => negb (Nat.eqb n 0) in
  _handle_alert_level sms 0 cf s =
  (Ok tt, mk_state true
     [("alice", contact_text 2 "Unknown" "12:00:00"); ("bob", contact_text 2 "Unknown" "12:00:00")]%string
     [add_actions [SmsSent "alice" false; SmsSent "bob" true; LivestreamStarted true] r]
     (Some 0%nat) []).
Proof.
  intros r s cf sms.
  apply (alert_level_partial_failure_isolation sms 0 cf s r "12:00:00"); reflexivity.
Defined.

(** Claim C7, as stated, fails when [stream_config['enabled']] is false:
    the first SMS fails, the second is still sent, but no livestream start
    step runs. *)
Lemma alert_level_stream_disabled_no_start :
  let '(res, s) := dispatch_emergency (fun _ => 0) (fun n _ _ => negb (Nat.eqb n 0))
                     (mk_data (Some 2) (Some (TsDatetime noon)) None)
                     (init_conf "alice,bob" "" false noon) init_state in
  res = Ok true /\ ls_is_streaming s = false /\
  match store s with
  | [e] => er_actions e = [LoggedEvent; SmsSent "alice" false; SmsSent "bob" true]
  | _ => False
  end.
Proof. vm_compute. repeat split. Qed.

End DispatchProofs.

(* ------------------------------------------------------------------ *)
(** ** The status query *)

Section StatusProofs.
Import Dispatch Status.

(** Claim C6: once the emergency dispatcher object exists, [get_status]
    raises [TypeError]: [is_active] is found as the bool bound in
    [EmergencyDispatcher.__init__] (and, before it, in [SensorManager] and
    [VisionProcessor]), and calling a bool fails, so no status dictionary is
    returned. *)
Theorem get_status_raises_with_dispatcher :
  forall (g : glove) (now : Q) (d : emergency_dispatcher),
    g_emergency_dispatcher g = Some d ->
    get_status g now = Raise TypeError.
Proof.
  intros [run st tl lu sm vp hc ed] now d Hd; simpl in Hd; subst ed.
  unfold get_status; simpl.
  destruct sm, vp, hc; reflexivity.
Qed.

(** The system after [initialize] with the default configuration: every
    subsystem constructed and active. *)
Lemma get_status_raises_with_dispatcher_witness :
  get_status (mk_glove true (Some 0%Q) 0 None (Some (mk_sm true)) (Some (mk_vp true))
                (Some (mk_hc true)) (Some (mk_ed true))) 5%Q = Raise TypeError.
Proof.
  apply (get_status_raises_with_dispatcher _ _ (mk_ed true)). reflexivity.
Defined.

End StatusProofs.

(* ------------------------------------------------------------------ *)
(** ** Channel calibration *)

Section CalibrationProofs.
Import Sensors.
Local Open Scope R_scope.

Lemma clamp_bounds : forall lo hi c, lo <= hi ->
  lo <= py_max lo (py_min hi c) <= hi.
Proof.
  intros lo hi c H. unfold py_max, py_min.
  destruct (Rlt_dec c hi); destruct (Rlt_dec lo _); simpl; lra.
Qed.

Lemma ps_step_range : forall s o,
  min_pressure (ps_step s o) = min_pressure s /\ max_pressure (ps_step s o) = max_pressure s.
Proof.
  intros s [x | [| y l]]; simpl; split; reflexivity.
Qed.

Lemma ps_fold_range : forall ops s,
  min_pressure (fold_left ps_step ops s) = min_pressure s /\
  max_pressure (fold_left ps_step ops s) = max_pressure s.
Proof.
  induction ops as [| o ops IH]; intros s; simpl.
  - split; reflexivity.
  - destruct (IH (ps_step s o)) as [H1 H2]. destruct (ps_step_range s o) as [H3 H4].
    split; congruence.
Qed.

Lemma ps_run_range : forall ops,
  min_pressure (ps_run ops) = 0.0 /\ max_pressure (ps_run ops) = 1000.0.
Proof. intros ops. apply (ps_fold_range ops ps_init). Qed.

Example apply_large_raw : ps_apply_calibration ps_init 5000 = 1000.0.
Proof.
  unfold ps_apply_calibration, py_max, py_min; cbn [ps_baseline sensitivity max_pressure ps_init].
  destruct (Rlt_dec ((5000 - 0.0) * 1.0) 1000.0) as [H | H]; [lra |].
  destruct (Rlt_dec 0.0 1000.0); lra.
Qed.

(** Claim C8: for every sequence of [set_sensitivity] and [calibrate] calls
    on a pressure channel (so for every configured sensitivity and baseline)
    and every raw value, the calibrated value lies in
    [[min_pressure, max_pressure]]; the flex channel's lies in [[0, 1]] for
    every calibration; [set_sensitivity] clamps any requested value into
    [[0.1, 10.0]].  Both apply steps are total functions. *)
Theorem calibrated_values_within_range :
  forall (ops : list ps_op) (raw x : R) (fs : flex_sensor) (raw_flex : R),
    min_pressure (ps_run ops) <= ps_apply_calibration (ps_run ops) raw
      <= max_pressure (ps_run ops) /\
    0.0 <= fs_apply_calibration fs raw_flex <= 1.0 /\
    0.1 <= sensitivity (set_sensitivity (ps_run ops) x) <= 10.0.
Proof.
  intros ops raw x fs raw_flex.
  destruct (ps_run_range ops) as [Hmin Hmax].
  split; [| split].
  - unfold ps_apply_calibration. rewrite Hmin. apply clamp_bounds. lra.
  - unfold fs_apply_calibration. apply clamp_bounds. lra.
  - simpl. apply clamp_bounds. lra.
Qed.

End CalibrationProofs.

(* ------------------------------------------------------------------ *)
(** ** The IMU fusion step *)

Section ImuProofs.
Import Sensors ImuScenarios.
Local Open Scope R_scope.

Lemma wrap_down_S : forall n a,
  wrap_down (S n) a = if Rlt_dec 180 a then wrap_down n (a - 360) else Some a.
Proof. reflexivity. Qed.

Lemma wrap_up_S : forall n a,
  wrap_up (S n) a = if Rlt_dec a (-180) then wrap_up n (a + 360) else Some a.
Proof. reflexivity. Qed.

(** With one unit of fuel both loops leave an angle of [[-180, 180]] alone. *)
Lemma normalize_angle_in_range : forall a,
  -180 <= a <= 180 -> normalize_angle 1 a = Some a.
Proof.
  intros a H. unfold normalize_angle. rewrite wrap_down_S.
  destruct (Rlt_dec 180 a); [lra |].
  rewrite wrap_up_S. destruct (Rlt_dec a (-180)); [lra | reflexivity].
Qed.

Lemma atan2_0_l : forall x, 0 < x -> atan2 0 x = 0.
Proof.
  intros x Hx. unfold atan2.
  destruct (Rlt_dec 0 x); [| lra].
  rewrite Rdiv_0_l. apply atan_0.
Qed.

(** [_euler_to_quaternion] gives a unit quaternion for every Euler triple. *)
Lemma euler_to_quaternion_unit : forall o,
  qw (euler_to_quaternion o) ^ 2 + qx (euler_to_quaternion o) ^ 2 +
  qy (euler_to_quaternion o) ^ 2 + qz (euler_to_quaternion o) ^ 2 = 1.
Proof.
  intros o. unfold euler_to_quaternion; cbn [qw qx qy qz].
  set (A := radians (v0 o) * 0.5).
  set (B := radians (v1 o) * 0.5).
  set (C := radians (v2 o) * 0.5).
  assert (E : forall x, sin x ^ 2 + cos x ^ 2 = 1)
    by (intro x; rewrite <- (sin2_cos2 x); unfold Rsqr; ring).
  transitivity ((sin A ^ 2 + cos A ^ 2) * (sin B ^ 2 + cos B ^ 2) *
                (sin C ^ 2 + cos C ^ 2)); [ring | rewrite !E; ring].
Qed.

(** Claim C9: after every fusion update the stored quaternion is the one
    [_euler_to_quaternion] derives from the fused Euler angles stored in the
    same update, so (over the reals) it has norm exactly 1. *)
Theorem fused_quaternion_rederived :
  forall (fuel : nat) (st : imu) (accel gyro mag : v3) (dt : R) (st' : imu),
    _update_orientation fuel st accel gyro mag dt = Some st' ->
    quaternion st' = euler_to_quaternion (orientation st') /\
    qw (quaternion st') ^ 2 + qx (quaternion st') ^ 2 +
    qy (quaternion st') ^ 2 + qz (quaternion st') ^ 2 = 1.
Proof.
  intros fuel st accel gyro mag dt st' H.
  unfold _update_orientation in H; cbv zeta in H.
  repeat match type of H with
         | context [match normalize_angle ?f ?x with _ => _ end] =>
             destruct (normalize_angle f x)
         end; try discriminate.
  injection H as <-; cbn [quaternion orientation set_orientation].
  split; [reflexivity | apply euler_to_quaternion_unit].
Qed.

Ltac zero_terms := unfold Rdiv; repeat rewrite Rmult_0_l; repeat rewrite Rmult_0_r.

Lemma fused_quaternion_rederived_witness :
  exists st',
    _update_orientation 1 (imu_at (mk_v3 0 0 0)) (mk_v3 0 0 1) (mk_v3 0 0 0)
      (mk_v3 0 0 0) 0.01 = Some st' /\
    quaternion st' = euler_to_quaternion (orientation st') /\
    qw (quaternion st') ^ 2 + qx (quaternion st') ^ 2 +
    qy (quaternion st') ^ 2 + qz (quaternion st') ^ 2 = 1.
Proof.
  assert (Hu : exists st', _update_orientation 1 (imu_at (mk_v3 0 0 0)) (mk_v3 0 0 1)
             (mk_v3 0 0 0) (mk_v3 0 0 0) 0.01 = Some st').
  { eexists. unfold _update_orientation; cbv zeta; cbn [v0 v1 v2 orientation imu_at].
    rewrite Ropp_0, atan2_0_l by lra.
    rewrite atan2_0_l by (apply sqrt_lt_R0; nra).
    rewrite !normalize_angle_in_range by (zero_terms; lra).
    reflexivity. }
  destruct Hu as [st' Hu]. exists st'. split; [exact Hu |].
  exact (fused_quaternion_rederived 1 (imu_at (mk_v3 0 0 0)) (mk_v3 0 0 1)
           (mk_v3 0 0 0) (mk_v3 0 0 0) 0.01 st' Hu).
Defined.

(** What the first loop leaves: at most 180, unchanged when already at most
    180, above -180 when it had to turn, and a whole number of turns away. *)
Lemma wrap_down_result : forall n a r,
  wrap_down n a = Some r ->
  r <= 180 /\ (a <= 180 -> r = a) /\ (180 < a -> -180 < r) /\
  exists k : nat, r = a - 360 * INR k.
Proof.
  induction n as [| n IH]; intros a r H; [discriminate |].
  rewrite wrap_down_S in H. destruct (Rlt_dec 180 a) as [Hlt | Hge].
  - destruct (IH _ _ H) as (H1 & H2 & H3 & k & Hk).
    split; [lra | split; [lra | split]].
    + intros _. destruct (Rle_dec (a - 360) 180) as [Hle | Hgt].
      * rewrite (H2 Hle); lra.
      * apply H3; lra.
    + exists (S k). rewrite S_INR. lra.
  - injection H as <-. split; [lra | split; [auto | split; [lra |]]].
    exists 0%nat. simpl. lra.
Qed.

Lemma wrap_up_result : forall n a r,
  wrap_up n a = Some r ->
  -180 <= r /\ (-180 <= a -> r = a) /\ (a < -180 -> r < 180) /\
  exists k : nat, r = a + 360 * INR k.
Proof.
  induction n as [| n IH]; intros a r H; [discriminate |].
  rewrite wrap_up_S in H. destruct (Rlt_dec a (-180)) as [Hlt | Hge].
  - destruct (IH _ _ H) as (H1 & H2 & H3 & k & Hk).
    split; [lra | split; [lra | split]].
    + intros _. destruct (Rle_dec (-180) (a + 360)) as [Hle | Hgt].
      * rewrite (H2 Hle); lra.
      * apply H3; lra.
    + exists (S k). rewrite S_INR. lra.
  - injection H as <-. split; [lra | split; [auto | split; [lra |]]].
    exists 0%nat. simpl. lra.
Qed.

Lemma wrap_down_mono : forall m n a r,
  wrap_down n a = Some r -> wrap_down (m + n) a = Some r.
Proof.
  assert (step : forall n a r, wrap_down n a = Some r -> wrap_down (S n) a = Some r).
  { induction n as [| n IH]; intros a r H; [discriminate |].
    rewrite wrap_down_S in H |- *. destruct (Rlt_dec 180 a); [apply IH |]; exact H. }
  induction m as [| m IH]; intros n a r H; [exact H |].
  apply step, IH, H.
Qed.

Lemma wrap_up_mono : forall m n a r,
  wrap_up n a = Some r -> wrap_up (m + n) a = Some r.
Proof.
  assert (step : forall n a r, wrap_up n a = Some r -> wrap_up (S n) a = Some r).
  { induction n as [| n IH]; intros a r H; [discriminate |].
    rewrite wrap_up_S in H |- *. destruct (Rlt_dec a (-180)); [apply IH |]; exact H. }
  induction m as [| m IH]; intros n a r H; [exact H |].
  apply step, IH, H.
Qed.

Lemma wrap_down_some : forall n a,
  a <= 180 + 360 * INR n -> exists r, wrap_down (S n) a = Some r.
Proof.
  induction n as [| n IH]; intros a H; rewrite wrap_down_S;
    destruct (Rlt_dec 180 a); eauto.
  - simpl in H. lra.
  - apply IH. rewrite S_INR in H. lra.
Qed.

Lemma wrap_up_some : forall n a,
  -180 - 360 * INR n <= a -> exists r, wrap_up (S n) a = Some r.
Proof.
  induction n as [| n IH]; intros a H; rewrite wrap_up_S;
    destruct (Rlt_dec a (-180)); eauto.
  - simpl in H. lra.
  - apply IH. rewrite S_INR in H. lra.
Qed.

Lemma nat_above : forall x, exists n : nat, x <= INR n.
Proof.
  intros x. destruct (archimed x) as [H _].
  destruct (Z_lt_le_dec (up x) 0) as [Hn | Hp].
  - exists 0%nat. apply IZR_lt in Hn. simpl. lra.
  - exists (Z.to_nat (up x)). rewrite INR_IZR_INZ, Z2Nat.id by exact Hp. lra.
Qed.

(** A concrete fusion step whose yaw is -180 before normalisation. *)
Lemma yaw_minus_180_update :
  _update_orientation 1 (imu_at (mk_v3 0 0 (-180))) (mk_v3 0 0 1) (mk_v3 0 0 0)
    (mk_v3 0 0 0) 0.01 =
  Some (set_orientation (imu_at (mk_v3 0 0 (-180))) (mk_v3 0 0 (-180))
          (euler_to_quaternion (mk_v3 0 0 (-180)))).
Proof.
  unfold _update_orientation; cbv zeta; cbn [v0 v1 v2 orientation imu_at].
  rewrite Ropp_0, atan2_0_l by lra.
  rewrite atan2_0_l by (apply sqrt_lt_R0; nra).
  rewrite !normalize_angle_in_range by (zero_terms; lra).
  match goal with
  | |- Some (set_orientation _ ?o _) = _ => replace o with (mk_v3 0 0 (-180))
  end; [reflexivity | f_equal; zero_terms; lra].
Qed.

(** Claim C10 (counterexample): a fused yaw of exactly -180 passes both
    loops unchanged, so the stored yaw is -180, outside [(-180, 180]]. *)
Lemma yaw_minus_180_not_normalized :
  exists st',
    _update_orientation 1 (imu_at (mk_v3 0 0 (-180))) (mk_v3 0 0 1) (mk_v3 0 0 0)
      (mk_v3 0 0 0) 0.01 = Some st' /\
    v2 (orientation st') = -180 /\ ~ (-180 < v2 (orientation st') <= 180).
Proof.
  eexists. split; [apply yaw_minus_180_update |].
  cbn [orientation set_orientation v2]. split; [reflexivity | lra].
Qed.

(** Claim C10 (amended): for every real angle the two normalisation loops
    terminate (some fuel suffices), and whatever they return lies in the
    closed interval [[-180, 180]] and differs from the input by an integer
    multiple of 360. *)
Theorem angle_normalization_closed_interval :
  forall a : R,
    (exists (fuel : nat) (r : R), normalize_angle fuel a = Some r) /\
    (forall (fuel : nat) (r : R), normalize_angle fuel a = Some r ->
       -180 <= r <= 180 /\ exists k : Z, r = a + 360 * IZR k).
Proof.
  intros a. split.
  - destruct (nat_above a) as [n1 Hn1]. pose proof (pos_INR n1).
    destruct (wrap_down_some n1 a ltac:(lra)) as [b Hb].
    destruct (nat_above (- b)) as [n2 Hn2]. pose proof (pos_INR n2).
    destruct (wrap_up_some n2 b ltac:(lra)) as [r Hr].
    exists (S n1 + S n2)%nat, r. unfold normalize_angle.
    rewrite Nat.add_comm, (wrap_down_mono (S n2) (S n1) a b Hb), Nat.add_comm.
    exact (wrap_up_mono (S n1) (S n2) b r Hr).
  - intros fuel r H. unfold normalize_angle in H.
    destruct (wrap_down fuel a) as [b |] eqn:Hd; [| discriminate].
    destruct (wrap_down_result _ _ _ Hd) as (D1 & D2 & D3 & k1 & K1).
    destruct (wrap_up_result _ _ _ H) as (U1 & U2 & U3 & k2 & K2).
    split.
    + destruct (Rlt_dec b (-180)) as [Hlt | Hge].
      * specialize (U3 Hlt). lra.
      * rewrite (U2 ltac:(lra)). lra.
    + exists (Z.of_nat k2 - Z.of_nat k1)%Z.
      rewrite minus_IZR, <- !INR_IZR_INZ. lra.
Qed.

Lemma angle_normalization_closed_interval_witness :
  normalize_angle 2 540 = Some 180 /\ -180 <= 180 <= 180.
Proof.
  assert (H : normalize_angle 2 540 = Some 180).
  { unfold normalize_angle. rewrite !wrap_down_S.
    destruct (Rlt_dec 180 540); [| lra].
    destruct (Rlt_dec 180 (540 - 360)); [lra |].
    rewrite !wrap_up_S. destruct (Rlt_dec (540 - 360) (-180)); [lra |].
    f_equal. lra. }
  split; [exact H |].
  exact (proj1 (proj2 (angle_normalization_closed_interval 540) 2%nat 180 H)).
Defined.

End ImuProofs.

(* ------------------------------------------------------------------ *)
(** ** The sensor manager's unusual-movement flag *)

Section MovementProofs.
Import Sensors ImuScenarios.
Local Open Scope R_scope.

Lemma detect_at_rest : _detect_unusual_movement (v3_py (mk_v3 0 0 0)) = Some false.
Proof.
  unfold _detect_unusual_movement, np_norm.
  cbn [v3_py v0 v1 v2 truthy negb List.length Nat.eqb orb sum_sq].
  match goal with |- context [sqrt ?x] => replace x with 0 by ring end.
  rewrite sqrt_0. destruct (Rlt_dec 15.0 0); [lra | reflexivity].
Qed.

(** Claim C4: for an initialised IMU, every cycle stores
    [unusual_movement = False], whatever the acceleration: [read] reports
    the calibrated acceleration under ['calibrated_data']['acceleration'],
    while [_process_sensor_data] looks up a top-level ['acceleration'] key,
    finds none, and tests the default [[0, 0, 0]]. *)
Theorem unusual_movement_never_detected :
  forall (fuel : nat) (st : imu) (raw_accel raw_gyro raw_mag : v3) (now : R)
         (d : pyv) (u : option (option bool)) (s : imu),
    is_initialized st = true ->
    collect_imu fuel st raw_accel raw_gyro raw_mag now = Some (d, u, s) ->
    u = Some (Some false) /\
    dict_get (dict_get d "calibrated_data" (PDict [])) "acceleration" (PDict []) =
      v3_py (bias_correct raw_accel (accel_bias st)).
Proof.
  intros fuel st ra rg rm now d u s Hinit H.
  unfold collect_imu, imu_read in H. rewrite Hinit in H. cbn [negb] in H.
  destruct (last_update_time st) as [t |];
    [destruct (_update_orientation fuel st _ _ _ _) as [s1 |]; [| discriminate] |];
    cbn iota beta in H; injection H as <- <- <-;
    (split; [| reflexivity]);
    unfold process_unusual_movement; simpl truthy; simpl dict_get;
    rewrite detect_at_rest; reflexivity.
Qed.

Lemma unusual_movement_never_detected_witness :
  15.0 < vector_magnitude (bias_correct (mk_v3 0 0 20) (accel_bias imu_fresh)) /\
  exists d s,
    collect_imu 1 imu_fresh (mk_v3 0 0 20) (mk_v3 0 0 0) (mk_v3 0 0 0) 1 =
      Some (d, Some (Some false), s).
Proof.
  split.
  - unfold vector_magnitude; cbn [bias_correct accel_bias imu_fresh v0 v1 v2].
    match goal with |- context [sqrt ?x] => replace x with (20 ^ 2) by ring end.
    rewrite sqrt_pow2 by lra. lra.
  - assert (Hc : exists d u s,
      collect_imu 1 imu_fresh (mk_v3 0 0 20) (mk_v3 0 0 0) (mk_v3 0 0 0) 1 = Some (d, u, s))
      by (do 3 eexists; reflexivity).
    destruct Hc as (d & u & s & Hc).
    destruct (unusual_movement_never_detected 1 imu_fresh (mk_v3 0 0 20) (mk_v3 0 0 0)
                (mk_v3 0 0 0) 1 d u s eq_refl Hc) as [Hu _].
    exists d, s. rewrite <- Hu. exact Hc.
Defined.

End MovementProofs.

(* ------------------------------------------------------------------ *)
(** ** Dispatcher state invariants *)

Section StableRuns.
Import Dispatch DispatchOps.

Variable R : dstate -> dstate -> Prop.
Hypothesis R_refl : forall s, R s s.
Hypothesis R_trans : forall s1 s2 s3, R s1 s2 -> R s2 s3 -> R s1 s3.

Lemma stable_ret {A} (a : A) : stable R (ret a).
Proof. intros c s. apply R_refl. Qed.

Lemma stable_raise {A} (e : exn) : stable R (@raise A e).
Proof. intros c s. apply R_refl. Qed.

Lemma stable_ask : stable R ask.
Proof. intros c s. apply R_refl. Qed.

Lemma stable_get_state : stable R get_state.
Proof. intros c s. apply R_refl. Qed.

Lemma stable_modify (f : dstate -> dstate) : (forall s, R s (f s)) -> stable R (modify f).
Proof. intros Hf c s. apply Hf. Qed.

Lemma stable_bind {A B} (m : M A) (k : A -> M B) :
  stable R m -> (forall a, stable R (k a)) -> stable R (bind m k).
Proof.
  intros Hm Hk c s. unfold bind. specialize (Hm c s).
  destruct (m c s) as [[a | e] s1]; simpl in *; [| exact Hm].
  eapply R_trans; [exact Hm | apply Hk].
Qed.

Lemma stable_catch {A} (m : M A) (h : exn -> M A) :
  stable R m -> (forall e, stable R (h e)) -> stable R (catch m h).
Proof.
  intros Hm Hh c s. unfold catch. specialize (Hm c s).
  destruct (m c s) as [[a | e] s1]; simpl in *; [exact Hm |].
  eapply R_trans; [exact Hm | apply Hh].
Qed.

Lemma stable_when (b : bool) (m : M unit) : stable R m -> stable R (when b m).
Proof. intros Hm. destruct b; [exact Hm | apply stable_ret]. Qed.

Lemma stable_for_each {A} (l : list A) (f : A -> M unit) :
  (forall x, stable R (f x)) -> stable R (for_each l f).
Proof.
  intros Hf. induction l as [| x l IH]; [apply stable_ret |].
  apply stable_bind; [apply Hf | intros; exact IH].
Qed.

Lemma stable_of_option {A} (o : option A) (e : exn) : stable R (of_option o e).
Proof. destruct o; [apply stable_ret | apply stable_raise]. Qed.

Lemma stable_get_record (eid : nat) : stable R (get_record eid).
Proof. intros c s. apply stable_of_option. Qed.

Lemma stable_create_alert_message (r : erecord) (b : bool) :
  stable R (_create_alert_message r b).
Proof.
  unfold _create_alert_message. apply stable_bind; [apply stable_of_option |].
  intros; apply stable_ret.
Qed.

Lemma stable_call_is_streaming : stable R call_is_streaming.
Proof. intros c s. unfold call_is_streaming; simpl. apply R_refl. Qed.

End StableRuns.

Section DispatchInvariants.
Import PyStr Stamp Dispatch DispatchOps.

Lemma update_nth_length {A} : forall n (f : A -> A) l,
  List.length (update_nth n f l) = List.length l.
Proof. induction n; intros f [| x l]; simpl; auto. Qed.

Lemma framed_refl : forall s, framed s s.
Proof. intros s. repeat split. Qed.

Lemma framed_trans : forall s1 s2 s3, framed s1 s2 -> framed s2 s3 -> framed s1 s3.
Proof.
  unfold framed. intros s1 s2 s3 (H1 & H2 & H3) (H4 & H5 & H6).
  repeat split; congruence.
Qed.

Lemma quiet_refl : forall s, quiet s s.
Proof. intros s. split; reflexivity. Qed.

Lemma quiet_trans : forall s1 s2 s3, quiet s1 s2 -> quiet s2 s3 -> quiet s1 s3.
Proof. unfold quiet. intros s1 s2 s3 [H1 H2] [H3 H4]. split; congruence. Qed.

Lemma same_history_refl : forall s, same_history s s.
Proof. intros s. reflexivity. Qed.

Lemma same_history_trans : forall s1 s2 s3,
  same_history s1 s2 -> same_history s2 s3 -> same_history s1 s3.
Proof. unfold same_history. congruence. Qed.

Lemma framed_append_action : forall eid a, stable framed (append_action eid a).
Proof.
  intros eid a c s. unfold framed; simpl. rewrite update_nth_length. repeat split.
Qed.

Lemma quiet_append_action : forall eid a, stable quiet (append_action eid a).
Proof. intros eid a c s. split; reflexivity. Qed.

Lemma framed_send_sms : forall sms p m, stable framed (send_sms sms p m).
Proof. intros sms p m c s. repeat split. Qed.

Lemma framed_start_emergency_stream : stable framed start_emergency_stream.
Proof. intros c s. repeat split. Qed.

Lemma same_history_send_sms : forall sms p m, stable same_history (send_sms sms p m).
Proof. intros sms p m c s. reflexivity. Qed.

Lemma same_history_start_emergency_stream : stable same_history start_emergency_stream.
Proof. intros c s. reflexivity. Qed.

Lemma same_history_append_action : forall eid a, stable same_history (append_action eid a).
Proof. intros eid a c s. reflexivity. Qed.

End DispatchInvariants.

Ltac stab_step :=
  first
    [ exact framed_refl | exact framed_trans | exact quiet_refl | exact quiet_trans
    | exact same_history_refl | exact same_history_trans
    | apply framed_append_action | apply quiet_append_action
    | apply framed_send_sms | apply framed_start_emergency_stream
    | apply same_history_send_sms | apply same_history_start_emergency_stream
    | apply same_history_append_action
    | apply stable_create_alert_message | apply stable_call_is_streaming
    | apply stable_get_record | apply stable_of_option
    | apply stable_ret | apply stable_ask
    | apply stable_bind | apply stable_when | apply stable_for_each
    | progress cbv zeta
    | match goal with |- DispatchOps.stable _ (if ?b then _ else _) => destruct b end
    | match goal with |- DispatchOps.stable _ _ => fail 1 | |- _ => intro end ].

Ltac stab := repeat stab_step.

Section DispatchCases.
Import PyStr Stamp Dispatch DispatchOps.

Lemma framed_caution : forall eid, stable framed (_handle_caution_level eid).
Proof. intros; unfold _handle_caution_level; stab. Qed.

Lemma framed_alert : forall sms eid, stable framed (_handle_alert_level sms eid).
Proof. intros; unfold _handle_alert_level; stab. Qed.

Lemma framed_emergency : forall sms eid, stable framed (_handle_emergency_level sms eid).
Proof. intros; unfold _handle_emergency_level; stab. Qed.

Lemma quiet_caution : forall eid, stable quiet (_handle_caution_level eid).
Proof. intros; unfold _handle_caution_level; stab. Qed.

Lemma same_history_alert : forall sms eid, stable same_history (_handle_alert_level sms eid).
Proof. intros; unfold _handle_alert_level; stab. Qed.

End DispatchCases.

Ltac stab_handlers :=
  repeat first
    [ stab_step | apply framed_caution | apply framed_alert | apply framed_emergency
    | apply quiet_caution | apply same_history_alert ].

Section DispatchCases2.
Import PyStr Stamp Dispatch DispatchOps.


Lemma bind_cases {A B} : forall (m : M A) (k : A -> M B) c s r s',
  bind m k c s = (r, s') ->
  (exists e, m c s = (Raise e, s') /\ r = Raise e) \/
  (exists a s1, m c s = (Ok a, s1) /\ k a c s1 = (r, s')).
Proof.
  intros m k c s r s' H. unfold bind in H.
  destruct (m c s) as [[a | e] s1]; [right; eauto | left].
  injection H as <- <-. eauto.
Qed.

Lemma gen_id_cases : forall h t c s,
  (exists id, _generate_emergency_id h t c s = (Ok id, s)) \/
  (exists e, _generate_emergency_id h t c s = (Raise e, s)).
Proof.
  intros h t c s. unfold _generate_emergency_id, bind, of_option, ret, raise.
  destruct (strftime t _); [destruct (microsecond_of t) |]; eauto.
Qed.

Lemma stable_framed_snd {A} : forall (m : M A) c s r s',
  stable framed m -> m c s = (r, s') -> framed s s'.
Proof. intros m c s r s' Hm H. specialize (Hm c s). rewrite H in Hm. exact Hm. Qed.

(** [_handle_emergency_level] never completes: the call of
    [is_streaming] raises. *)
Lemma emergency_level_raises : forall sms eid c s,
  exists e, fst (_handle_emergency_level sms eid c s) = Raise e.
Proof.
  intros sms eid c s. unfold _handle_emergency_level, bind at 1, ask.
  unfold bind at 1.
  destruct (when _ _ c s) as [[u | e] s1]; [| simpl; eauto].
  unfold bind, call_is_streaming, lookup_is_streaming. simpl. eauto.
Qed.

(** The three handlers and the history update that end [dispatch_emergency]. *)
Lemma dispatch_tail_cases : forall sms (b1 b2 b3 : bool) eid c s r s',
  bind (when b1 (_handle_caution_level eid)) (fun _ =>
  bind (when b2 (_handle_alert_level sms eid)) (fun _ =>
  bind (when b3 (_handle_emergency_level sms eid)) (fun _ =>
  bind (push_history eid) (fun _ => ret true)))) c s = (r, s') ->
  (exists e, r = Raise e /\ framed s s') \/
  (r = Ok true /\ b3 = false /\ current_emergency s' = current_emergency s /\
   List.length (store s') = List.length (store s) /\
   emergency_history s' = pushed (emergency_history s) eid).
Proof.
  intros sms b1 b2 b3 eid c s r s' H.
  assert (F1 : stable framed (when b1 (_handle_caution_level eid))) by stab_handlers.
  assert (F2 : stable framed (when b2 (_handle_alert_level sms eid))) by stab_handlers.
  assert (F3 : stable framed (when b3 (_handle_emergency_level sms eid))) by stab_handlers.
  apply bind_cases in H as [(e & H1 & ->) | (u1 & s1 & H1 & H)];
    [left; exists e; split; [reflexivity | exact (stable_framed_snd _ _ _ _ _ F1 H1)] |].
  pose proof (stable_framed_snd _ _ _ _ _ F1 H1) as G1.
  apply bind_cases in H as [(e & H2 & ->) | (u2 & s2 & H2 & H)];
    [left; exists e; split; [reflexivity |
       exact (framed_trans _ _ _ G1 (stable_framed_snd _ _ _ _ _ F2 H2))] |].
  pose proof (framed_trans _ _ _ G1 (stable_framed_snd _ _ _ _ _ F2 H2)) as G2.
  apply bind_cases in H as [(e & H3 & ->) | (u3 & s3 & H3 & H)];
    [left; exists e; split; [reflexivity |
       exact (framed_trans _ _ _ G2 (stable_framed_snd _ _ _ _ _ F3 H3))] |].
  pose proof (framed_trans _ _ _ G2 (stable_framed_snd _ _ _ _ _ F3 H3)) as (C & Hh & L).
  assert (B3 : b3 = false).
  { destruct b3; [| reflexivity].
    destruct (emergency_level_raises sms eid c s2) as [e He].
    cbn [when] in H3. rewrite H3 in He. discriminate. }
  unfold bind, push_history, modify, ret in H. injection H as <- <-.
  right. cbn [set_history current_emergency store emergency_history].
  repeat split; [exact B3 | congruence | congruence |].
  rewrite Hh. reflexivity.
Qed.

(** What one [dispatch_emergency] call does to the references: nothing
    (the id could not be generated), or a new record is allocated and made
    current, and it is appended to the history exactly when [True] is
    returned. *)
Lemma dispatch_cases : forall h sms ed cf s r s',
  dispatch_emergency h sms ed cf s = (r, s') ->
  (r = Ok false /\ s' = s) \/
  (List.length (store s') = S (List.length (store s)) /\
   current_emergency s' = Some (List.length (store s)) /\
   ((r = Ok false /\ emergency_history s' = emergency_history s) \/
    (r = Ok true /\
     (3 <=? match ed_threat_level ed with Some z => z | None => 0 end)%Z = false /\
     emergency_history s' = pushed (emergency_history s) (List.length (store s))))).
Proof.
  intros h sms ed cf s r s' H. unfold dispatch_emergency, catch in H.
  match type of H with
  | match ?B cf s with _ => _ end = _ => destruct (B cf s) as [rb sb] eqn:Hb
  end.
  apply bind_cases in Hb as [(e & He & _) | (c0 & s0 & Ha & Hb)]; [discriminate |].
  unfold ask in Ha. injection Ha as <- <-. cbv zeta in Hb.
  apply bind_cases in Hb as [(e & Hid & ->) | (id & s1 & Hid & Hb)].
  - destruct (gen_id_cases h
      match ed_timestamp ed with Some t => t | None => TsDatetime (clock cf) end cf s)
      as [(id & Hid') | (e' & Hid')]; rewrite Hid' in Hid; [discriminate |].
    injection Hid as _ <-. unfold ret in H. injection H as <- <-. left; split; reflexivity.
  - destruct (gen_id_cases h
      match ed_timestamp ed with Some t => t | None => TsDatetime (clock cf) end cf s)
      as [(id' & Hid') | (e' & Hid')]; rewrite Hid' in Hid; [| discriminate].
    injection Hid as _ <-.
    apply bind_cases in Hb as [(e & Hal & _) | (eid & s2 & Hal & Hb)];
      [unfold alloc in Hal; discriminate |].
    unfold alloc in Hal. injection Hal as <- <-.
    apply bind_cases in Hb as [(e & Hm & _) | (u & s3 & Hm & Hb)];
      [unfold modify in Hm; discriminate |].
    unfold modify in Hm. injection Hm as _ <-.
    right.
    apply dispatch_tail_cases in Hb as [(e & -> & (C & Hh & L)) | (-> & B3 & C & L & Hh)].
    + unfold ret in H. injection H as <- <-.
      cbn [set_current set_store current_emergency store emergency_history] in C, Hh, L.
      rewrite L, length_app. simpl. repeat split; [lia | exact C |]. left; split; auto.
    + injection H as <- <-.
      cbn [set_current set_store current_emergency store emergency_history] in C, Hh, L.
      rewrite L, length_app. simpl. repeat split; [lia | exact C |]. right; split; auto.
Qed.

End DispatchCases2.

Section DispatcherExtras.
Import PyStr Stamp Dispatch DispatchOps Scenarios.

Lemma pushed_length : forall h n,
  (List.length h <= max_history_size)%nat ->
  (List.length (pushed h n) <= max_history_size)%nat.
Proof.
  intros h n Hh. unfold pushed.
  destruct (Nat.ltb_spec max_history_size (List.length (h ++ [n]))) as [Hlt | Hge].
  - destruct h as [| x h]; simpl in *; [unfold max_history_size in *; lia |].
    rewrite length_app in *. simpl in *. lia.
  - exact Hge.
Qed.


(** The emergency history never grows beyond [max_history_size] (100)
    records, whatever a dispatch does. *)
Theorem dispatch_history_bounded :
  forall h sms ed cf s r s',
    (List.length (emergency_history s) <= max_history_size)%nat ->
    dispatch_emergency h sms ed cf s = (r, s') ->
    (List.length (emergency_history s') <= max_history_size)%nat.
Proof.
  intros h sms ed cf s r s' Hs H.
  apply dispatch_cases in H as [(_ & ->) | (_ & _ & [(_ & ->) | (_ & _ & ->)])];
    [exact Hs | exact Hs | apply pushed_length; exact Hs].
Qed.

Lemma dispatch_history_bounded_witness :
  exists r s',
    dispatch_emergency (fun _ => 0%Z) (fun _ _ _ => true)
      (mk_data (Some 1%Z) (Some (TsDatetime noon)) None)
      (init_conf "alice" "911" true noon) init_state = (r, s') /\
    (List.length (emergency_history s') <= max_history_size)%nat.
Proof.
  remember (dispatch_emergency (fun _ => 0%Z) (fun _ _ _ => true)
      (mk_data (Some 1%Z) (Some (TsDatetime noon)) None)
      (init_conf "alice" "911" true noon) init_state) as p eqn:Hp.
  destruct p as [r s']. exists r, s'. split; [reflexivity |].
  refine (dispatch_history_bounded _ _ _ _ _ _ _ _ (eq_sym Hp)).
  simpl. unfold max_history_size. lia.
Defined.

(** [dispatch_emergency] either fails before building a record (it returns
    False and changes nothing) or allocates exactly one new record and makes
    it current; it then returns True exactly when it appended that record to
    the history (which only happens below threat level 3), and a False
    return leaves the history as it was. *)
Theorem dispatch_outcome :
  forall h sms ed cf s r s',
    dispatch_emergency h sms ed cf s = (r, s') ->
    (r = Ok false /\ s' = s) \/
    (List.length (store s') = S (List.length (store s)) /\
     current_emergency s' = Some (List.length (store s)) /\
     ((r = Ok false /\ emergency_history s' = emergency_history s) \/
      (r = Ok true /\
       (3 <=? match ed_threat_level ed with Some z => z | None => 0 end)%Z = false /\
       emergency_history s' = pushed (emergency_history s) (List.length (store s))))).
Proof. exact dispatch_cases. Qed.

Lemma dispatch_outcome_witness :
  exists r s',
    dispatch_emergency (fun _ => 0%Z) (fun _ _ _ => true)
      (mk_data (Some 2%Z) (Some (TsDatetime noon)) None)
      (init_conf "alice" "911" true noon) init_state = (r, s') /\
    ((r = Ok false /\ s' = init_state) \/
     (List.length (store s') = 1%nat /\ current_emergency s' = Some 0%nat /\
      ((r = Ok false /\ emergency_history s' = []) \/
       (r = Ok true /\ (3 <=? 2)%Z = false /\ emergency_history s' = pushed [] 0)))).
Proof.
  remember (dispatch_emergency (fun _ => 0%Z) (fun _ _ _ => true)
      (mk_data (Some 2%Z) (Some (TsDatetime noon)) None)
      (init_conf "alice" "911" true noon) init_state) as p eqn:Hp.
  destruct p as [r s']. exists r, s'. split; [reflexivity |].
  exact (dispatch_outcome _ _ _ _ _ _ _ (eq_sym Hp)).
Defined.



(** At threat level 3 or more, [dispatch_emergency] always returns False and
    never appends to the emergency history, for every configuration,
    timestamp and state. *)
Theorem dispatch_emergency_level_always_false :
  forall h sms ed cf s r s' z,
    ed_threat_level ed = Some z -> (3 <= z)%Z ->
    dispatch_emergency h sms ed cf s = (r, s') ->
    r = Ok false /\ emergency_history s' = emergency_history s.
Proof.
  intros h sms ed cf s r s' z Hz H3 H.
  apply dispatch_cases in H as [(-> & ->) | (_ & _ & [(-> & Hs) | (_ & B & _)])];
    [split; reflexivity | split; [reflexivity | exact Hs] |].
  rewrite Hz in B. apply Z.leb_gt in B. lia.
Qed.

Lemma dispatch_emergency_level_always_false_witness :
  exists r s',
    dispatch_emergency (fun _ => 0%Z) (fun _ _ _ => true)
      (mk_data (Some 3%Z) (Some (TsDatetime noon)) None)
      (init_conf "alice" "911" true noon) init_state = (r, s') /\
    r = Ok false /\ emergency_history s' = [].
Proof.
  remember (dispatch_emergency (fun _ => 0%Z) (fun _ _ _ => true)
      (mk_data (Some 3%Z) (Some (TsDatetime noon)) None)
      (init_conf "alice" "911" true noon) init_state) as p eqn:Hp.
  destruct p as [r s']. exists r, s'. split; [reflexivity |].
  refine (dispatch_emergency_level_always_false _ _ _ _ _ _ _ 3%Z _ _ (eq_sym Hp));
    [reflexivity | lia].
Defined.

Lemma quiet_alloc : forall r, stable quiet (alloc r).
Proof. intros r c s. split; reflexivity. Qed.

(** Below threat level 2, [dispatch_emergency] sends no SMS and never
    changes the livestream state, whatever the configuration. *)
Theorem dispatch_below_alert_is_quiet :
  forall h sms ed cf s,
    (match ed_threat_level ed with Some z => z | None => 0 end < 2)%Z ->
    quiet s (snd (dispatch_emergency h sms ed cf s)).
Proof.
  intros h sms ed cf s Hlt.
  set (tl := match ed_threat_level ed with Some z => z | None => 0%Z end) in *.
  assert (E2 : (2 <=? tl)%Z = false) by (apply Z.leb_gt; lia).
  assert (E3 : (3 <=? tl)%Z = false) by (apply Z.leb_gt; lia).
  revert cf s.
  match goal with |- forall c s, quiet s (snd (?m c s)) => change (stable quiet m) end.
  unfold dispatch_emergency. cbv zeta. fold tl. unfold when at 2 3.
  rewrite E2, E3. cbv beta iota.
  repeat first
    [ stab_step | apply quiet_caution | apply quiet_alloc
    | apply stable_catch | apply stable_modify
    | match goal with |- forall s, quiet s _ => intro; split; reflexivity end ].
Qed.

Lemma dispatch_below_alert_is_quiet_witness :
  quiet init_state
    (snd (dispatch_emergency (fun _ => 0%Z) (fun _ _ _ => true)
            (mk_data (Some 1%Z) (Some (TsDatetime noon)) None)
            (init_conf "alice" "911" true noon) init_state)).
Proof. apply dispatch_below_alert_is_quiet. simpl. lia. Defined.



Lemma resolve_emergency_eq : forall eid_str c s,
  resolve_emergency eid_str c s =
  match current_emergency s with
  | Some i =>
      match nth_error (store s) i with
      | Some rec =>
          if String.eqb (er_id rec) eid_str then
            (Ok true, set_current None (set_streaming false
                        (set_store (update_nth i (set_status "resolved") (store s)) s)))
          else (Ok false, s)
      | None => (Ok false, s)
      end
  | None => (Ok false, s)
  end.
Proof.
  intros eid_str c s.
  unfold resolve_emergency, catch, bind, get_state, get_record, of_option,
    ret, raise, modify, stop_stream.
  destruct (current_emergency s) as [i |]; [| reflexivity].
  destruct (nth_error (store s) i) as [rec |]; [| reflexivity].
  destruct (String.eqb (er_id rec) eid_str); reflexivity.
Qed.



(** Resolving the current emergency by its id succeeds, and afterwards no
    emergency is current: every later [resolve_emergency] call, with any
    id, returns False and changes nothing. *)
Theorem resolve_emergency_once :
  forall eid_str c s i rec,
    current_emergency s = Some i -> nth_error (store s) i = Some rec ->
    er_id rec = eid_str ->
    fst (resolve_emergency eid_str c s) = Ok true /\
    forall id' c',
      resolve_emergency id' c' (snd (resolve_emergency eid_str c s)) =
        (Ok false, snd (resolve_emergency eid_str c s)).
Proof.
  intros eid_str c s i rec Hc Hn Hid.
  rewrite resolve_emergency_eq, Hc, Hn, Hid, String.eqb_refl. simpl.
  split; [reflexivity |].
  intros id' c'. rewrite resolve_emergency_eq. reflexivity.
Qed.

Lemma resolve_emergency_once_witness :
  fst (resolve_emergency "VG_x" (init_conf "alice" "911" true noon)
         (mk_state true [] [mk_record "VG_x" (TsDatetime noon) 3 "here"
                             (mk_data (Some 3%Z) None None) [] "active"] (Some 0%nat) [0%nat]))
    = Ok true.
Proof.
  refine (proj1 (resolve_emergency_once _ _ _ 0%nat
    (mk_record "VG_x" (TsDatetime noon) 3 "here" (mk_data (Some 3%Z) None None) [] "active")
    _ _ _)); reflexivity.
Defined.

(** [get_emergency_history(limit)] is [emergency_history[-limit:]]: a
    positive limit gives the last [min(limit, len)] records, a limit of 0
    gives the whole history (not an empty list), and a negative limit drops
    the first [-limit] records. *)
Theorem get_emergency_history_slice :
  forall s limit,
    let h := emergency_history s in
    (limit = 0%Z -> get_emergency_history s limit = h) /\
    ((0 < limit)%Z ->
       get_emergency_history s limit =
         skipn (List.length h - Nat.min (Z.to_nat limit) (List.length h)) h) /\
    ((limit < 0)%Z -> get_emergency_history s limit = skipn (Z.to_nat (- limit)) h).
Proof.
  intros s limit h. unfold get_emergency_history, py_slice_from. fold h.
  destruct h as [| x l] eqn:Eh; cbn [is_empty negb].
  - repeat split; intros; rewrite ?skipn_nil; reflexivity.
  - set (n := List.length (x :: l)).
    repeat split; intros Hl.
    + subst limit. simpl. reflexivity.
    + destruct (Z.ltb_spec (- limit) 0) as [_ | Hge]; [| lia]. f_equal. lia.
    + destruct (Z.ltb_spec (- limit) 0) as [Hneg | _]; [lia |].
      destruct (Z.le_ge_cases (- limit) (Z.of_nat n)) as [Hle | Hgt].
      * rewrite Z.min_l by exact Hle. reflexivity.
      * rewrite Z.min_r by lia.
        rewrite !skipn_all2; [reflexivity | | ]; unfold n in *; lia.
Qed.

Lemma get_emergency_history_slice_witness :
  get_emergency_history (mk_state false [] [] None [0; 1; 2]%nat) 0 = [0; 1; 2]%nat /\
  get_emergency_history (mk_state false [] [] None [0; 1; 2]%nat) 2 = [1; 2]%nat.
Proof.
  split.
  - exact (proj1 (get_emergency_history_slice
                    (mk_state false [] [] None [0; 1; 2]%nat) 0) eq_refl).
  - refine (eq_trans (proj1 (proj2 (get_emergency_history_slice
                    (mk_state false [] [] None [0; 1; 2]%nat) 2)) _) _);
      [lia | reflexivity].
Defined.

End DispatcherExtras.

(* ------------------------------------------------------------------ *)
(** ** Pressure channel: [read] and the touch state *)

Section PressureExtras.
Import Sensors SensorOps.
Local Open Scope R_scope.

Lemma pc_step_max : forall c o,
  max_pressure (pc_cal (pc_step c o)) = max_pressure (pc_cal c).
Proof.
  intros c [| | x | l | raw t1 t2]; try reflexivity.
  - destruct l; reflexivity.
  - unfold pc_step, pc_read. destruct (negb (pc_is_initialized c)); [reflexivity |].
    unfold _update_touch_state.
    destruct (Rle_dec _ _); destruct (is_touching c);
      match goal with |- context [Req_EM_T ?a ?b] => destruct (Req_EM_T a b) end;
      reflexivity.
Qed.

Lemma pc_session_max : forall ops, max_pressure (pc_cal (pc_session ops)) = 1000.0.
Proof.
  intros ops. unfold pc_session.
  assert (H : forall c, max_pressure (pc_cal (fold_left pc_step ops c)) = max_pressure (pc_cal c)).
  { induction ops as [| o ops IH]; intros c; simpl; [reflexivity |].
    rewrite IH. apply pc_step_max. }
  rewrite H. reflexivity.
Qed.

Lemma update_touch_cal : forall c p t, pc_cal (_update_touch_state c p t) = pc_cal c.
Proof.
  intros c p t. unfold _update_touch_state.
  destruct (Rle_dec _ _); destruct (is_touching c); reflexivity.
Qed.

Lemma update_touch_touching : forall c p t,
  is_touching (_update_touch_state c p t) =
    if Rle_dec (touch_threshold (pc_cal c)) p then true else false.
Proof.
  intros c p t. unfold _update_touch_state.
  destruct (Rle_dec _ _); destruct (is_touching c) eqn:E; simpl; auto.
Qed.

(** A read of an uninitialised channel returns the error dictionary (all
    values 0, not touching) and changes nothing.  A read of an initialised
    channel, after any sequence of calls, succeeds; its percentage lies in
    [[0, 100]], its force in [[0, 10]] newton, and it reports a touch
    exactly when the calibrated value reaches the touch threshold. *)
Theorem pressure_read_ranges :
  forall (ops : list pc_op) (raw t1 t2 : R),
    let c := pc_session ops in
    let r := fst (pc_read c raw t1 t2) in
    (pc_is_initialized c = false -> pc_read c raw t1 t2 = (error_reading, c)) /\
    (pc_is_initialized c = true ->
       pr_status_ok r = true /\
       0 <= pr_pressure_percentage r <= 100 /\
       0 <= pr_force_newton r <= 10 /\
       pr_is_touching r =
         (if Rle_dec (touch_threshold (pc_cal c)) (pr_value r) then true else false)).
Proof.
  intros ops raw t1 t2 c r. split; intros Hi; unfold r, pc_read; rewrite Hi;
    [reflexivity |]. cbn [negb].
  pose proof (pc_session_max ops) as Hmax. fold c in Hmax.
  rewrite update_touch_cal, Hmax.
  match goal with |- context [Req_EM_T ?a ?b] => destruct (Req_EM_T a b) as [E | _] end;
    [lra |]. cbn [fst].
  cbn [pr_status_ok pr_pressure_percentage pr_force_newton pr_is_touching pr_value].
  rewrite update_touch_touching.
  assert (Hb : 0.0 <= ps_apply_calibration (pc_cal c) raw <= 1000.0).
  { unfold ps_apply_calibration. rewrite Hmax. apply clamp_bounds. lra. }
  unfold _pressure_to_force.
  set (v := ps_apply_calibration (pc_cal c) raw) in *.
  repeat split; try reflexivity; unfold Rdiv; lra.
Qed.

(** On every channel, whatever calls it received, a touch start time is
    recorded exactly while a touch is in progress. *)
Theorem touch_start_iff_touching :
  forall ops : list pc_op,
    is_touching (pc_session ops) = false <-> touch_start_time (pc_session ops) = None.
Proof.
  intros ops. unfold pc_session.
  assert (Hinv : forall c,
    (is_touching c = false <-> touch_start_time c = None) ->
    forall o, is_touching (pc_step c o) = false <-> touch_start_time (pc_step c o) = None).
  { intros c H [| | x | l | raw t1 t2]; simpl; try exact H; try tauto.
    unfold pc_read. destruct (negb (pc_is_initialized c)); [exact H |].
    assert (Hu : forall p t,
      is_touching (_update_touch_state c p t) = false <->
      touch_start_time (_update_touch_state c p t) = None).
    { intros p t. clear -H. unfold _update_touch_state.
      destruct c as [cal ini [|] st]; simpl in *;
        destruct (Rle_dec _ _); simpl;
        first [exact H | tauto | split; intro; discriminate]. }
    destruct (Req_EM_T _ _); apply Hu. }
  assert (Hfold : forall c,
    (is_touching c = false <-> touch_start_time c = None) ->
    is_touching (fold_left pc_step ops c) = false <->
    touch_start_time (fold_left pc_step ops c) = None).
  { induction ops as [| o ops IH]; intros c H; simpl; [exact H |].
    apply IH, Hinv, H. }
  apply Hfold. simpl. tauto.
Qed.

(** If no recorded touch started after [t1] and the clock does not go
    back between the two reads of it ([t1 <= t2]), the touch duration a
    read reports is never negative, and afterwards no recorded touch
    started after [t2]. *)
Theorem touch_duration_nonneg :
  forall (c : pressure_channel) (raw t1 t2 : R),
    (forall t0, touch_start_time c = Some t0 -> t0 <= t1) -> t1 <= t2 ->
    0 <= pr_touch_duration (fst (pc_read c raw t1 t2)) /\
    (forall t0, touch_start_time (snd (pc_read c raw t1 t2)) = Some t0 -> t0 <= t2).
Proof.
  intros c raw t1 t2 Hc Ht.
  assert (Hu : forall p,
    (forall t0, touch_start_time (_update_touch_state c p t1) = Some t0 -> t0 <= t1)).
  { intros p t0. unfold _update_touch_state.
    destruct (Rle_dec _ _); destruct (is_touching c); simpl; try apply Hc;
      intro H; try discriminate; injection H as <-; lra. }
  unfold pc_read. destruct (negb (pc_is_initialized c)).
  - simpl. split; [lra |]. intros t0 H. specialize (Hc t0 H). lra.
  - set (c' := _update_touch_state c _ t1) in *.
    assert (Hc' : forall t0, touch_start_time c' = Some t0 -> t0 <= t1) by apply Hu.
    destruct (Req_EM_T _ _); simpl.
    + split; [lra |]. intros t0 H. specialize (Hc' t0 H). lra.
    + split.
      * unfold _get_touch_duration. destruct (negb (is_touching c')); [lra |].
        destruct (touch_start_time c') as [t0 |] eqn:E; [| lra].
        specialize (Hc' t0 eq_refl). lra.
      * intros t0 H. specialize (Hc' t0 H). lra.
Qed.

Lemma touch_duration_nonneg_witness :
  0 <= pr_touch_duration (fst (pc_read (pc_initialize pc_init) 500 1 2)).
Proof.
  refine (proj1 (touch_duration_nonneg (pc_initialize pc_init) 500 1 2 _ _)).
  - intros t0 H. discriminate H.
  - lra.
Defined.

(** After [calibrate] on an initialised channel at sensitivity 1, with
    baseline [b] (the mean of the readings) and standard deviation [sd],
    and a threshold [b + 3 sd] in [(0, max_pressure]], a read reports a
    touch exactly when the raw value is at least [2 b + 3 sd]: the
    threshold is set in raw units but compared with the baseline-corrected
    value, so the baseline counts twice. *)
Theorem touch_threshold_counts_baseline_twice :
  forall (c : pressure_channel) (readings : list R) (raw t1 t2 : R),
    pc_is_initialized c = true -> sensitivity (pc_cal c) = 1.0 -> readings <> [] ->
    let b := mean readings in
    let sd := sqrt (mean (map (fun x => (x - b) ^ 2) readings)) in
    0 < b + 3 * sd <= max_pressure (pc_cal c) ->
    (pr_is_touching (fst (pc_read (snd (pc_calibrate c readings)) raw t1 t2)) = true
     <-> 2 * b + 3 * sd <= raw).
Proof.
  intros c readings raw t1 t2 Hi Hs Hne b sd Hth.
  destruct readings as [| x l]; [contradiction |].
  unfold pc_calibrate, pc_read. cbn [snd pc_is_initialized negb].
  rewrite Hi. cbn [negb].
  rewrite update_touch_cal.
  cbn [pc_cal ps_calibrate max_pressure].
  match goal with |- context [Req_EM_T ?a ?b] => destruct (Req_EM_T a b) as [E | _] end;
    [lra |].
  cbn [fst pr_is_touching]. rewrite update_touch_touching.
  cbn [pc_cal touch_threshold]. fold b. fold sd.
  unfold ps_apply_calibration. cbn [ps_baseline sensitivity max_pressure]. fold b.
  rewrite Hs. unfold py_max, py_min.
  destruct (Rlt_dec ((raw - b) * 1.0) (max_pressure (pc_cal c))) as [H1 | H1];
    [destruct (Rlt_dec 0.0 ((raw - b) * 1.0)) as [H2 | H2] |
     destruct (Rlt_dec 0.0 (max_pressure (pc_cal c))) as [H2 | H2]];
    (destruct (Rle_dec _ _) as [H3 | H3]; split; intro H; try discriminate; try reflexivity;
     lra).
Qed.

Lemma touch_threshold_counts_baseline_twice_witness :
  pr_is_touching (fst (pc_read (snd (pc_calibrate (pc_initialize pc_init) [10; 10])) 25 1 1))
    = true.
Proof.
  assert (Hb : mean [10; 10] = 10) by (unfold mean; simpl; field).
  assert (Hsd : sqrt (mean (map (fun x => (x - mean [10; 10]) ^ 2) [10; 10])) = 0).
  { rewrite Hb.
    replace (mean (map (fun x => (x - 10) ^ 2) [10; 10])) with 0
      by (unfold mean; simpl; field).
    apply sqrt_0. }
  apply (touch_threshold_counts_baseline_twice (pc_initialize pc_init) [10; 10] 25 1 1).
  - reflexivity.
  - reflexivity.
  - discriminate.
  - cbv zeta. rewrite Hsd, Hb. simpl. lra.
  - cbv zeta. rewrite Hsd, Hb. lra.
Defined.

End PressureExtras.

(* ------------------------------------------------------------------ *)
(** ** Flex and IMU calibration *)

Section CalibrationExtras.
Import Sensors SensorOps.
Local Open Scope R_scope.

Lemma sum_shift {A} : forall (f : A -> R) (c : R) (l : list A),
  fold_right Rplus 0 (map (fun x => f x - c) l) =
  fold_right Rplus 0 (map f l) - INR (List.length l) * c.
Proof.
  intros f c l. induction l as [| x l IH]; simpl map; simpl fold_right.
  - simpl. ring.
  - rewrite IH. cbn [List.length]. rewrite S_INR. ring.
Qed.

Lemma mean_shift {A} : forall (f : A -> R) (c : R) (l : list A),
  l <> [] -> mean (map (fun x => f x - c) l) = mean (map f l) - c.
Proof.
  intros f c l Hne. unfold mean. rewrite !length_map, sum_shift.
  assert (Hn : INR (List.length l) <> 0).
  { destruct l; [contradiction |]. simpl List.length. rewrite S_INR.
    pose proof (pos_INR (List.length l)). lra. }
  field. exact Hn.
Qed.

(** A successful flex calibration with baseline [b] (the mean of the
    readings) sets the range to [[b - 0.1, b + 0.5]]; every later reading
    [raw] is then mapped to [(raw - 2 b + 0.1) / 0.6] clamped into
    [[0, 1]]: [_apply_calibration] subtracts the baseline once itself and
    once more through [min_value]. *)
Theorem flex_calibration_counts_baseline_twice :
  forall (s : flex_sensor) (readings : list R) (raw : R),
    readings <> [] ->
    fst (fs_calibrate s readings) = true /\
    fs_apply_calibration (snd (fs_calibrate s readings)) raw =
      py_max 0.0 (py_min 1.0 ((raw - 2 * mean readings + 0.1) / 0.6)).
Proof.
  intros s readings raw Hne.
  destruct readings as [| x l]; [contradiction |].
  split; [reflexivity |].
  unfold fs_calibrate, fs_apply_calibration. cbn [snd min_value max_value fs_baseline].
  set (b := mean (x :: l)).
  cbv zeta.
  destruct (Req_EM_T (b + 0.5) (b - 0.1)) as [E | _]; [lra |].
  replace (b + 0.5 - (b - 0.1)) with 0.6 by lra.
  replace (raw - b - (b - 0.1)) with (raw - 2 * b + 0.1) by lra.
  reflexivity.
Qed.

Lemma flex_calibration_counts_baseline_twice_witness :
  fs_apply_calibration (snd (fs_calibrate fs_init [0.3; 0.3])) 0.3 =
    py_max 0.0 (py_min 1.0 ((0.3 - 2 * mean [0.3; 0.3] + 0.1) / 0.6)).
Proof.
  exact (proj2 (flex_calibration_counts_baseline_twice fs_init [0.3; 0.3] 0.3
                  ltac:(discriminate))).
Defined.

(** After a successful IMU calibration, the calibration samples corrected
    with the new biases have mean acceleration [(0, 0, 9.81)] and mean
    angular velocity and magnetic field [(0, 0, 0)].  With no sample (a
    duration under 0.01 s) the calibration fails and the sensor is left as
    it was. *)
Theorem imu_calibration_centers_samples :
  forall (st : imu) (samples : list (v3 * v3 * v3)),
    (samples = [] -> imu_calibrate st samples = (false, st)) /\
    (samples <> [] ->
     let st' := snd (imu_calibrate st samples) in
     let acc := map (fun s => bias_correct (fst (fst s)) (accel_bias st')) samples in
     let gyr := map (fun s => bias_correct (snd (fst s)) (gyro_bias st')) samples in
     let mg := map (fun s => bias_correct (snd s) (mag_bias st')) samples in
     fst (imu_calibrate st samples) = true /\
     mean (map v0 acc) = 0 /\ mean (map v1 acc) = 0 /\ mean (map v2 acc) = 9.81 /\
     mean (map v0 gyr) = 0 /\ mean (map v1 gyr) = 0 /\ mean (map v2 gyr) = 0 /\
     mean (map v0 mg) = 0 /\ mean (map v1 mg) = 0 /\ mean (map v2 mg) = 0).
Proof.
  intros st samples. split; [intros -> ; reflexivity |].
  intros Hne. destruct samples as [| s0 rest] eqn:Es; [contradiction |].
  rewrite <- Es in *. cbv zeta.
  replace (fst (imu_calibrate st samples)) with true by (rewrite Es; reflexivity).
  replace (snd (imu_calibrate st samples)) with
    (let accel_samples := map (fun s => fst (fst s)) samples in
     let gyro_samples := map (fun s => snd (fst s)) samples in
     let mag_samples := map snd samples in
     let comp_mean (l : list v3) :=
       mk_v3 (mean (map v0 l)) (mean (map v1 l)) (mean (map v2 l)) in
     let ab := comp_mean accel_samples in
     let ab := mk_v3 (v0 ab) (v1 ab) (v2 ab - 9.81) in
     mk_imu (is_initialized st) ab (comp_mean gyro_samples) (comp_mean mag_samples)
       (orientation st) (quaternion st) (velocity st) (position st)
       (last_update_time st)) by (rewrite Es; reflexivity).
  cbv zeta. cbn [accel_bias gyro_bias mag_bias v0 v1 v2].
  unfold bias_correct. cbn [v0 v1 v2]. rewrite !map_map. cbn [v0 v1 v2].
  rewrite !(mean_shift (fun x => v0 (fst (fst x)))), !(mean_shift (fun x => v1 (fst (fst x)))),
    !(mean_shift (fun x => v2 (fst (fst x)))), !(mean_shift (fun x => v0 (snd (fst x)))),
    !(mean_shift (fun x => v1 (snd (fst x)))), !(mean_shift (fun x => v2 (snd (fst x)))),
    !(mean_shift (fun x => v0 (snd x))), !(mean_shift (fun x => v1 (snd x))),
    !(mean_shift (fun x => v2 (snd x))) by exact Hne.
  repeat split; ring.
Qed.

Lemma imu_calibration_centers_samples_witness :
  fst (imu_calibrate ImuScenarios.imu_fresh
         [(mk_v3 0.1 0.2 9.9, mk_v3 0.01 0 0, mk_v3 20 5 (-40))]) = true.
Proof.
  refine (proj1 (proj2 (imu_calibration_centers_samples ImuScenarios.imu_fresh
                          [(mk_v3 0.1 0.2 9.9, mk_v3 0.01 0 0, mk_v3 20 5 (-40))]) _)).
  discriminate.
Defined.

End CalibrationExtras.

(* ------------------------------------------------------------------ *)
(** ** Gesture detection and the emergency-gesture flag *)

Section GestureExtras.
Import Sensors SensorOps.
Local Open Scope string_scope.
Local Open Scope R_scope.

(** For the five finger values (thumb, index, middle, ring, pinky) the
    recognised gestures are: "fist" when all five exceed 0.7, "open_hand"
    when all five are below 0.3, "pointing" when the index is below 0.3
    and the four others exceed 0.7, and "peace_sign" when the index and
    the pinky are below 0.3 while thumb, middle and ring exceed 0.7 (the
    middle finger closed). *)
Theorem detect_gestures_five_fingers :
  forall t i m r p : R,
    let g := _detect_gestures [t; i; m; r; p] in
    (g = ["fist"] <-> 0.7 < t /\ 0.7 < i /\ 0.7 < m /\ 0.7 < r /\ 0.7 < p) /\
    (g = ["open_hand"] <-> t < 0.3 /\ i < 0.3 /\ m < 0.3 /\ r < 0.3 /\ p < 0.3) /\
    (g = ["pointing"] <-> 0.7 < t /\ i < 0.3 /\ 0.7 < m /\ 0.7 < r /\ 0.7 < p) /\
    (g = ["peace_sign"] <-> 0.7 < t /\ i < 0.3 /\ 0.7 < m /\ 0.7 < r /\ p < 0.3).
Proof.
  intros t i m r p g. unfold g, _detect_gestures, count_if, gt_b. cbv zeta.
  cbn [List.length Nat.ltb Nat.leb filter nth].
  destruct (Rlt_dec 0.7 t); destruct (Rlt_dec t 0.3); try lra;
  destruct (Rlt_dec 0.7 i); destruct (Rlt_dec i 0.3); try lra;
  destruct (Rlt_dec 0.7 m); destruct (Rlt_dec m 0.3); try lra;
  destruct (Rlt_dec 0.7 r); destruct (Rlt_dec r 0.3); try lra;
  destruct (Rlt_dec 0.7 p); destruct (Rlt_dec p 0.3); try lra;
  cbn [List.length Nat.eqb andb];
  refine (conj _ (conj _ (conj _ _))); split; intro H;
  repeat match goal with Hc : _ /\ _ |- _ => destruct Hc end;
  first [reflexivity | discriminate | lra | (repeat split; lra)].
Qed.

Lemma np_norm_zero : np_norm (v3_py (mk_v3 0 0 0)) = Some 0.
Proof.
  unfold np_norm. cbn [v3_py v0 v1 v2 sum_sq].
  match goal with |- context [sqrt ?x] => replace x with 0 by ring end.
  rewrite sqrt_0. reflexivity.
Qed.

(** For every IMU dictionary a data-collection cycle can store (the one
    [IMUSensor.read] returns, initialised or not, or [{}] without an IMU)
    and every flex and pressure values, [_process_sensor_data] returns
    normally with [emergency_gesture = False]: the movement magnitude it
    tests is that of the default [[0, 0, 0]] (or the default 0), so even a
    detected fist never raises the flag. *)
Theorem emergency_gesture_never_detected :
  forall (imu_data : pyv) (flex_values pressure_values : list R),
    (imu_data = PDict [] \/
     exists fuel st raw_accel raw_gyro raw_mag now s,
       imu_read fuel st raw_accel raw_gyro raw_mag now = Some (imu_data, s)) ->
    exists pr, _process_sensor_data flex_values imu_data pressure_values = Some pr /\
               p_emergency_gesture pr = false.
Proof.
  intros d fl pv Hd.
  assert (Hgz : forall g, _detect_emergency_gesture g (Some 0) = false).
  { intros g. unfold _detect_emergency_gesture, gt_b.
    destruct (existsb _ g); [| reflexivity]. destruct (Rlt_dec 10 0); [lra | reflexivity]. }
  destruct Hd as [-> | (fuel & st & ra & rg & rm & now & s & H)].
  - eexists. split; [reflexivity |]. cbn [p_emergency_gesture].
    unfold _detect_emergency_gesture, gt_b.
    destruct (existsb _ _); [| reflexivity]. destruct (Rlt_dec 10 0); [lra | reflexivity].
  - unfold imu_read in H.
    destruct (negb (is_initialized st)).
    + injection H as <- _.
      unfold _process_sensor_data. simpl truthy. simpl dict_get.
      rewrite np_norm_zero, detect_at_rest.
      eexists. split; [reflexivity |]. apply Hgz.
    + destruct (last_update_time st) as [t |];
        [destruct (_update_orientation fuel st _ _ _ _) as [s1 |]; [| discriminate] |];
        cbn iota beta in H; injection H as <- _;
        unfold _process_sensor_data; simpl truthy; simpl dict_get;
        rewrite np_norm_zero, detect_at_rest;
        eexists; (split; [reflexivity | apply Hgz]).
Qed.

Lemma emergency_gesture_never_detected_witness :
  exists pr,
    _process_sensor_data [0.9; 0.9; 0.9; 0.9; 0.9] (PDict []) [] = Some pr /\
    p_emergency_gesture pr = false.
Proof.
  apply emergency_gesture_never_detected. left. reflexivity.
Defined.

End GestureExtras.

(* ------------------------------------------------------------------ *)
(** ** The configuration manager *)

Section ConfigExtras.
Import Config.
Local Open Scope string_scope.
Local Open Scope list_scope.

Lemma dget_dset_same : forall d k v, dget (dset d k v) k = Some v.
Proof.
  induction d as [| [k' v'] r IH]; intros k v; simpl.
  - rewrite String.eqb_refl. reflexivity.
  - destruct (String.eqb k k') eqn:E; simpl; rewrite E; [reflexivity | apply IH].
Qed.

Lemma dget_dset_other : forall d k k2 v,
  k <> k2 -> dget (dset d k v) k2 = dget d k2.
Proof.
  induction d as [| [k' v'] r IH]; intros k k2 v Hne; simpl.
  - destruct (String.eqb k2 k) eqn:E; [| reflexivity].
    apply String.eqb_eq in E. congruence.
  - destruct (String.eqb k k') eqn:E; simpl.
    + apply String.eqb_eq in E. subst k'.
      destruct (String.eqb k2 k) eqn:E2; [| reflexivity].
      apply String.eqb_eq in E2. congruence.
    + destruct (String.eqb k2 k'); [reflexivity | apply IH, Hne].
Qed.

Lemma split_dot_not_nil : forall s, split_dot s <> [].
Proof.
  induction s as [| c r IH]; simpl; [discriminate |].
  destruct (Ascii.eqb c "."); [discriminate |].
  destruct (split_dot r); discriminate.
Qed.

Lemma set_path_cons2 : forall k k2 ks d v,
  set_path d (k :: k2 :: ks) v =
  match dget d k with
  | None => option_map (fun d' => dset d k (JDict d')) (set_path [] (k2 :: ks) v)
  | Some (JDict sub) => option_map (fun d' => dset d k (JDict d')) (set_path sub (k2 :: ks) v)
  | Some _ => None
  end.
Proof. reflexivity. Qed.

Lemma set_path_get : forall keys d v d',
  set_path d keys v = Some d' -> get_path (JDict d') keys = Some v.
Proof.
  induction keys as [| k ks IH]; intros d v d' H; [discriminate |].
  destruct ks as [| k2 ks'].
  - simpl in H. injection H as <-. simpl. rewrite dget_dset_same. reflexivity.
  - rewrite set_path_cons2 in H.
    destruct (dget d k) as [[| | | | | | sub] |] eqn:E; try discriminate;
      [destruct (set_path sub (k2 :: ks') v) as [d0 |] eqn:E0 |
       destruct (set_path [] (k2 :: ks') v) as [d0 |] eqn:E0];
      try discriminate; cbn [option_map] in H; injection H as <-;
      cbn [get_path]; rewrite dget_dset_same; apply (IH _ _ _ E0).
Qed.

Lemma set_path_nil_some : forall keys v, keys <> [] -> exists d', set_path [] keys v = Some d'.
Proof.
  induction keys as [| k ks IH]; intros v Hne; [contradiction |].
  destruct ks as [| k2 ks'].
  - eexists. reflexivity.
  - destruct (IH v ltac:(discriminate)) as [d0 E0].
    rewrite set_path_cons2. cbn [dget option_map]. rewrite E0. eexists. reflexivity.
Qed.

Lemma get_path_nil_dict : forall keys w,
  keys <> [] -> get_path (JDict []) keys = Some w -> False.
Proof. intros [| k ks] w Hne H; [contradiction | discriminate]. Qed.

Lemma set_path_fails_iff : forall keys d v, keys <> [] ->
  (set_path d keys v = None <->
   exists n w, (n < List.length keys)%nat /\
               get_path (JDict d) (firstn n keys) = Some w /\ is_dict w = false).
Proof.
  induction keys as [| k ks IH]; intros d v Hne; [contradiction |].
  destruct ks as [| k2 ks'].
  - simpl. split; [discriminate |].
    intros (n & w & Hn & Hg & Hw). destruct n; [| simpl in Hn; lia].
    simpl in Hg. injection Hg as <-. discriminate.
  - rewrite set_path_cons2. destruct (dget d k) as [w0 |] eqn:E.
    + destruct w0 as [| b | z | q | s | l | sub].
      1-6: split; [intros _ | reflexivity];
        exists 1%nat; eexists; split; [simpl; lia |];
        split; [cbn [firstn get_path]; rewrite E; reflexivity | reflexivity].
      specialize (IH sub v ltac:(discriminate)).
      split.
      * intros H. destruct (set_path sub (k2 :: ks') v) eqn:E0; [discriminate |].
        destruct (proj1 IH eq_refl) as (n & w & Hn & Hg & Hw).
        exists (S n), w. split; [simpl in *; lia |].
        split; [| exact Hw]. cbn [firstn get_path]. rewrite E. exact Hg.
      * intros (n & w & Hn & Hg & Hw).
        destruct n as [| n]; [simpl in Hg; injection Hg as <-; discriminate |].
        cbn [firstn get_path] in Hg. rewrite E in Hg.
        assert (Hs : set_path sub (k2 :: ks') v = None).
        { apply (proj2 IH). exists n, w. split; [simpl in *; lia | split; assumption]. }
        rewrite Hs. reflexivity.
    + destruct (set_path_nil_some (k2 :: ks') v ltac:(discriminate)) as [d0 E0].
      rewrite E0. split; [discriminate |].
      intros (n & w & Hn & Hg & Hw).
      destruct n as [| n]; [simpl in Hg; injection Hg as <-; discriminate |].
      cbn [firstn get_path] in Hg. rewrite E in Hg. discriminate.
Qed.


Lemma load_config_dget : forall file cfg k,
  NoDup (map fst file) ->
  dget (load_config cfg file) k =
    match dget file k with Some v => Some v | None => dget cfg k end.
Proof.
  unfold load_config.
  induction file as [| [k' v'] r IH]; intros cfg k Hnd; simpl; [reflexivity |].
  inversion Hnd as [| ? ? Hnin Hnd']; subst.
  rewrite IH by exact Hnd'.
  destruct (String.eqb k k') eqn:E.
  - apply String.eqb_eq in E. subst k'.
    assert (Hr : dget r k = None).
    { clear -Hnin. induction r as [| [k2 v2] r IH]; simpl; [reflexivity |].
      simpl in Hnin. destruct (String.eqb k k2) eqn:E.
      - apply String.eqb_eq in E. subst. tauto.
      - apply IH. tauto. }
    rewrite Hr, dget_dset_same. reflexivity.
  - apply String.eqb_neq in E.
    destruct (dget r k); [reflexivity |]. apply dget_dset_other. congruence.
Qed.

(** [set(key, value)] followed by [get(key, default)] returns [value]
    whenever the [set] succeeds: missing dicts on the way are created. *)
Theorem config_set_then_get :
  forall (config config' : dict) (key : string) (value default : jv),
    set config key value = Some config' -> get config' key default = value.
Proof.
  intros config config' key value default H. unfold get.
  rewrite (set_path_get _ _ _ _ H). reflexivity.
Qed.

Lemma config_set_then_get_witness :
  exists config',
    set default_config "vision.tracking.enabled" (JBool true) = Some config' /\
    get config' "vision.tracking.enabled" JNone = JBool true.
Proof.
  eexists. split; [reflexivity |].
  apply (config_set_then_get default_config). reflexivity.
Defined.

(** [set(key, value)] raises TypeError exactly when one of the values it
    walks through (the value at a proper prefix of the dotted key) exists
    and is not a dict; otherwise it succeeds.  Nothing is changed when it
    raises. *)
Theorem config_set_type_error :
  forall (config : dict) (key : string) (value : jv),
    set config key value = None <->
    exists n w, (n < List.length (split_dot key))%nat /\
                get_path (JDict config) (firstn n (split_dot key)) = Some w /\
                is_dict w = false.
Proof.
  intros config key value. unfold set.
  apply set_path_fails_iff, split_dot_not_nil.
Qed.



(** [load_config] updates the configuration shallowly: when the file has
    a section [sec] (a JSON object), [get('sec.k', default)] afterwards
    reads that section of the file only, so a default setting the file's
    section does not repeat is lost and [get] returns [default]. *)
Theorem load_config_replaces_sections :
  forall (config file sub : dict) (key sec k : string) (default : jv),
    NoDup (map fst file) -> split_dot key = [sec; k] ->
    dget file sec = Some (JDict sub) ->
    get (load_config config file) key default =
      match dget sub k with Some v => v | None => default end.
Proof.
  intros config file sub key sec k default Hnd Hk Hs. unfold get. rewrite Hk.
  cbn [get_path]. rewrite load_config_dget by exact Hnd. rewrite Hs.
  cbn [get_path]. destruct (dget sub k); reflexivity.
Qed.

Lemma load_config_replaces_sections_witness :
  get default_config "vision.person_threshold" JNone = JInt 3 /\
  get (load_config default_config [("vision", JDict [("fps", JInt 15)])])
    "vision.person_threshold" JNone = JNone.
Proof.
  split; [reflexivity |].
  refine (eq_trans (load_config_replaces_sections default_config
            [("vision", JDict [("fps", JInt 15)])] [("fps", JInt 15)]
            "vision.person_threshold" "vision" "person_threshold" JNone _ _ _) _).
  - constructor; [simpl; tauto | constructor].
  - reflexivity.
  - reflexivity.
  - reflexivity.
Defined.

End ConfigExtras.


(* ------------------------------------------------------------------ *)
(** ** The main loop *)

Section GloveLoopExtras.
Import Sensors Config GloveLoop.
Local Open Scope string_scope.
Local Open Scope R_scope.

Lemma py_bool_zero : py_bool (PNum 0) = false.
Proof. unfold py_bool. destruct (Req_EM_T 0 0); [reflexivity | lra]. Qed.

Lemma analyze_stored_dicts : forall th x sd vd,
  jv_num th = Some x -> 0 < x -> sensor_latest sd -> vision_latest vd ->
  _analyze_threat_level th (get_latest_data sd) (process_frame vd) = Some 0%Z.
Proof.
  intros th x sd vd Hj Hx Hs Hv.
  unfold _analyze_threat_level. rewrite Hj.
  assert (Hd : dict_get (process_frame vd) "person_count" (PNum 0) = PNum 0 /\
               dict_get (get_latest_data sd) "unusual_movement" (PNum 0) = PNum 0 /\
               dict_get (get_latest_data sd) "emergency_gesture" (PNum 0) = PNum 0).
  { destruct Hs; destruct Hv; repeat split; reflexivity. }
  destruct Hd as (H1 & H2 & H3). rewrite H1, H2, H3, py_bool_zero.
  destruct (Rle_dec x 0); [lra | reflexivity].
Qed.

Lemma analyze_no_threshold : forall th sd vd,
  jv_num th = None -> _analyze_threat_level th sd vd = None.
Proof.
  intros th sd vd Hj. unfold _analyze_threat_level. rewrite Hj.
  destruct (dict_get _ _ _); reflexivity.
Qed.

(** With a numeric [vision.person_threshold] above 0 (the default is 3),
    every run of the main loop over the dictionaries the sensor manager
    and the vision processor can store keeps the threat level at 0 and
    triggers no haptic feedback and no emergency dispatch: the evaluator
    looks up top-level keys ['person_count'], ['unusual_movement'] and
    ['emergency_gesture'] that those dictionaries never have (they sit
    under ['summary'] and ['processed']). *)
Theorem main_loop_threat_stays_zero :
  forall (th : jv) (x : R) (has_haptic has_dispatcher : bool)
         (inputs : list (pyv * pyv * R)) (g : glove_state),
    jv_num th = Some x -> 0 < x -> gs_threat_level g = 0%Z ->
    Forall (fun i => sensor_latest (fst (fst i)) /\ vision_latest (snd (fst i))) inputs ->
    let g' := main_loop th has_haptic has_dispatcher inputs g in
    gs_threat_level g' = 0%Z /\ haptic_log g' = haptic_log g /\
    dispatch_log g' = dispatch_log g.
Proof.
  intros th x hh hd inputs. induction inputs as [| [[sd vd] t] rest IH];
    intros g Hj Hx Hg Hall; cbn [main_loop].
  - auto.
  - inversion Hall as [| ? ? [Hs Hv] Hrest]; subst.
    unfold _process_cycle. rewrite (analyze_stored_dicts th x sd vd Hj Hx Hs Hv).
    rewrite Hg. cbn [Z.eqb negb].
    destruct (IH (mk_gs 0 (Some t) (haptic_log g) (dispatch_log g)) Hj Hx eq_refl Hrest)
      as (H1 & H2 & H3).
    auto.
Qed.

Lemma main_loop_threat_stays_zero_witness :
  gs_threat_level (main_loop (JInt 3) true true
     [(PDict [], PDict [], 1); (GloveLoop.collected_data (PTime 2) (PList []) (PDict [])
                                 (PList []) (PDict [("emergency_gesture", PNum 1)]),
                                GloveLoop.frame_analysis_error (PTime 2) (PStr "e")
                                  (PDict [("person_count", PNum 9)]), 2)] gs_init) = 0%Z.
Proof.
  refine (proj1 (main_loop_threat_stays_zero (JInt 3) 3 true true _ gs_init eq_refl _ eq_refl _)).
  - lra.
  - repeat constructor.
Defined.

(** When the loaded configuration file has a ['vision'] section without
    ['person_threshold'] (the shallow [load_config] drops the default 3),
    [self.config.get('vision.person_threshold')] is [None], every cycle of
    the main loop raises TypeError, and the loop never changes the threat
    level, [last_update], the haptic feedback or the dispatches. *)
Theorem main_loop_stalls_without_threshold :
  forall (config file sub : dict) (has_haptic has_dispatcher : bool)
         (inputs : list (pyv * pyv * R)) (g : glove_state),
    NoDup (map fst file) -> dget file "vision" = Some (JDict sub) ->
    dget sub "person_threshold" = None ->
    main_loop (get (load_config config file) "vision.person_threshold" JNone)
      has_haptic has_dispatcher inputs g = g.
Proof.
  intros config file sub hh hd inputs g Hnd Hv Hp.
  assert (Hget : get (load_config config file) "vision.person_threshold" JNone = JNone).
  { unfold get.
    change (split_dot "vision.person_threshold") with ["vision"; "person_threshold"].
    cbn [get_path]. rewrite load_config_dget by exact Hnd. rewrite Hv.
    cbn [get_path]. rewrite Hp. reflexivity. }
  rewrite Hget. clear Hget.
  revert g. induction inputs as [| [[sd vd] t] rest IH]; intros g; cbn [main_loop];
    [reflexivity |].
  unfold _process_cycle. rewrite analyze_no_threshold by reflexivity. apply IH.
Qed.

Lemma main_loop_stalls_without_threshold_witness :
  main_loop (get (load_config default_config [("vision", JDict [("fps", JInt 15)])])
               "vision.person_threshold" JNone)
    true true [(PDict [], PDict [], 1)] gs_init = gs_init.
Proof.
  apply (main_loop_stalls_without_threshold default_config _ [("fps", JInt 15)]).
  - constructor; [simpl; tauto | constructor].
  - reflexivity.
  - reflexivity.
Defined.

End GloveLoopExtras.
